(** * GaiaLab Jupyter magic: a shallow embedding of [gaialab_magic.py]

    The extension registers one cell magic, [%%gaialab], and one line magic,
    [%gaialab_config].  The development below embeds the Python text of
    [jupyter-extension/gaialab_magic.py] in Rocq:

    - Python [str] values are sequences of Unicode code points;
    - the parsed JSON reply is a tree of Python values;
    - the magic itself runs in a small state-and-exception monad whose state
      is the magic object ([api_url]), the notebook namespace ([user_ns]) and
      the sequence of externally visible actions (displays, prints, the HTTP
      request). *)

From Stdlib Require Import ZArith NArith Ascii String DecimalString.
From stdpp Require Import base option list gmap.

Local Open Scope N_scope.
Set Warnings "-register-all,-clear-no-such-hyp".
Set Default Proof Using "Type".

(** ** Python strings *)

(** A Python [str] is a sequence of code points. *)
Abbreviation char := N (only parsing).
Abbreviation str := (list N) (only parsing).

(** Source literals.  A literal is written as an ASCII Rocq string in which a
    backslash introduces an escape: [\q] is the double quote, [\n] a line
    feed, [\\] a backslash, and [\#] followed by hexadecimal digits and a
    semicolon is the code point with that number. *)
Module Literal.

Definition hex_digit (a : ascii) : option N :=
  let n := N_of_ascii a in
  if (48 <=? n) && (n <=? 57) then Some (n - 48)
  else if (65 <=? n) && (n <=? 70) then Some (n - 55)
  else None.

(** [read_hex acc s]: the code point accumulated so far and the text that
    follows its terminating semicolon. *)
Fixpoint read_hex (acc : N) (s : string) : N * string :=
  match s with
  | EmptyString => (acc, EmptyString)
  | String a s' =>
      match hex_digit a with
      | Some d => read_hex (16 * acc + d) s'
      | None => (acc, s')
      end
  end.

Fixpoint decode (fuel : nat) (s : string) : str :=
  match fuel with
  | O => []
  | S fuel' =>
      match s with
      | EmptyString => []
      | String "\" (String "q" s') => 34 :: decode fuel' s'
      | String "\" (String "n" s') => 10 :: decode fuel' s'
      | String "\" (String "\" s') => 92 :: decode fuel' s'
      | String "\" (String "#" s') =>
          let '(cp, rest) := read_hex 0 s' in cp :: decode fuel' rest
      | String a s' => N_of_ascii a :: decode fuel' s'
      end
  end.

Definition lit (s : string) : str := decode (String.length s) s.

End Literal.

Abbreviation lit := Literal.lit.

(** Decimal rendering of an integer, as [str(int)] prints it. *)
Definition str_of_Z (z : Z) : str :=
  lit (NilZero.string_of_int (Z.to_int z)).

(** [Py_UNICODE_ISSPACE]: the code points that [str.strip()] removes. *)
Definition is_space (c : char) : bool :=
  ((9 <=? c) && (c <=? 13)) || ((28 <=? c) && (c <=? 32))
  || (c =? 133) || (c =? 160) || (c =? 5760)
  || ((8192 <=? c) && (c <=? 8202))
  || (c =? 8232) || (c =? 8233) || (c =? 8239) || (c =? 8287) || (c =? 12288).

Fixpoint lstrip (s : str) : str :=
  match s with
  | c :: s' => if is_space c then lstrip s' else s
  | [] => []
  end.

Definition rstrip (s : str) : str := reverse (lstrip (reverse s)).

(** [s.strip()] *)
Definition py_strip (s : str) : str := rstrip (lstrip s).

(** Prepend a code point to the first fragment of a split. *)
Definition cons_head (c : char) (frags : list str) : list str :=
  match frags with
  | f :: fs => (c :: f) :: fs
  | [] => [[c]]
  end.

(** [s.split(sep, maxsplit)] for a one-character separator; [None] is the
    absent [maxsplit]. *)
Fixpoint py_split (sep : char) (maxsplit : option nat) (s : str) {struct s}
  : list str :=
  match maxsplit with
  | Some O => [s]
  | _ =>
      match s with
      | [] => [[]]
      | c :: s' =>
          if c =? sep then [] :: py_split sep (Nat.pred <$> maxsplit) s'
          else cons_head c (py_split sep maxsplit s')
      end
  end.

(** [sep.join(parts)] for parts that are all [str]. *)
Fixpoint py_join (sep : str) (parts : list str) : str :=
  match parts with
  | [] => []
  | [p] => p
  | p :: ps => p ++ sep ++ py_join sep ps
  end.

(** [c in s] for a one-character [c]. *)
Definition py_contains (c : char) (s : str) : bool := existsb (N.eqb c) s.

(** [s * n] *)
Fixpoint py_repeat (s : str) (n : nat) : str :=
  match n with
  | O => []
  | S n' => s ++ py_repeat s n'
  end.

(** ** Python values *)

(** The values [response.json()] can return.  [float] is the type of binary
    floating-point numbers; a [dict] is kept as its items in insertion order,
    the first binding of a key being the live one. *)
Inductive value (float : Type) : Type :=
| VNone
| VBool (b : bool)
| VInt (z : Z)
| VFloat (f : float)
| VStr (s : str)
| VList (l : list (value float))
| VDict (d : list (str * value float)).

Arguments VNone {float}.
Arguments VBool {float} b.
Arguments VInt {float} z.
Arguments VFloat {float} f.
Arguments VStr {float} s.
Arguments VList {float} l.
Arguments VDict {float} d.

(** The ways an operation of the interpreter fails in this program, with the
    offending operand. *)
Inductive pyerror (float : Type) : Type :=
| NoAttribute (v : value float) (attr : str)  (* AttributeError *)
| NotIterable (v : value float)               (* TypeError *)
| NotSliceable (v : value float)              (* TypeError; KeyError on a dict *)
| NoLen (v : value float)                     (* TypeError *)
| BadOperand (v : value float)                (* TypeError of [v * 100] *)
| BadInt (v : value float)                    (* TypeError, ValueError, OverflowError of [int(v)] *)
| BadFormat (spec : str) (v : value float)    (* TypeError, ValueError, OverflowError of [format(v, spec)] *)
| BadJoinItem (i : nat) (v : value float)     (* TypeError of [str.join] *)
| BadUnpack (n : nat).                        (* ValueError of [a, b = xs] *)

Arguments NoAttribute {float} v attr.
Arguments NotIterable {float} v.
Arguments NotSliceable {float} v.
Arguments NoLen {float} v.
Arguments BadOperand {float} v.
Arguments BadInt {float} v.
Arguments BadFormat {float} spec v.
Arguments BadJoinItem {float} i v.
Arguments BadUnpack {float} n.

(** An instance of [Exception]: whether it is a [requests.exceptions.Timeout]
    and what [str(e)] gives. *)
Record exn : Type := Exn { exn_is_timeout : bool; exn_str : str }.

(** What the program takes from its runtime: Unicode case mapping, floating
    point arithmetic and formatting, [repr] of compound values, [int(str)],
    and the text of the interpreter's error messages. *)
Class PyRuntime : Type := {
  float : Type;
  (** the upper-case mapping of one code point ([str.upper] applies it to
      each code point in turn) *)
  upper_char : char -> str;
  (** [f * 100] *)
  float_mul100 : float -> float;
  (** [float(z)]; [None] is OverflowError *)
  float_of_int : Z -> option float;
  (** [int(f)]; [None] is OverflowError (infinities) or ValueError (nan) *)
  int_of_float : float -> option Z;
  (** [int(s)]; [None] is ValueError *)
  int_of_str : str -> option Z;
  (** [bool(f)] *)
  float_truthy : float -> bool;
  (** [format(f, '.0f')] and [format(f, '.2e')] *)
  format_0f : float -> str;
  format_2e : float -> str;
  (** [repr(v)], used for a [float], a [list] and a [dict] *)
  py_repr : value float -> str;
  (** [str(e)] of an error raised by the interpreter *)
  error_text : pyerror float -> str
}.

(** Computations that return or raise. *)
Inductive exc (A : Type) : Type :=
| Return (a : A)
| Raise (e : exn).

Arguments Return {A} a.
Arguments Raise {A} e.

#[export] Instance exc_ret : MRet exc := fun A a => Return a.
#[export] Instance exc_bind : MBind exc := fun A B f m =>
  match m with
  | Return a => f a
  | Raise e => Raise e
  end.

(** [[f(x) for x in xs]], stopping at the first exception. *)
Fixpoint exc_map {A B : Type} (f : A -> exc B) (xs : list A) : exc (list B) :=
  match xs with
  | [] => Return []
  | x :: xs' => y ← f x; ys ← exc_map f xs'; Return (y :: ys)
  end.

(** A pandas [DataFrame]: column labels and, per row, one cell per column
    ([None] is a missing cell). *)
Record DataFrame (float : Type) : Type := MkDataFrame {
  columns : list str;
  rows : list (list (option (value float)))
}.

Arguments MkDataFrame {float} columns rows.
Arguments columns {float} d.
Arguments rows {float} d.

(** What an invocation does to the outside, in order. *)
Inductive event (float : Type) : Type :=
| DisplayHTML (html : str)                (* display(HTML(html)) *)
| DisplayMarkdown (md : str)              (* display(Markdown(md)) *)
| DisplayFrame (df : DataFrame float)     (* display(pd.DataFrame(...)) *)
| Print (text : str)                      (* print(text) *)
| HttpPost (url : str) (body : value float) (timeout : Z)
                                          (* requests.post(url, json=body, timeout=timeout) *)
| ResponseJson.                           (* response.json() *)

Arguments DisplayHTML {float} html.
Arguments DisplayMarkdown {float} md.
Arguments DisplayFrame {float} df.
Arguments Print {float} text.
Arguments HttpPost {float} url body timeout.
Arguments ResponseJson {float}.

(** The keys of a list of items, each once, in order of first occurrence. *)
Fixpoint first_occurrences (seen : list str) (keys : list str) : list str :=
  match keys with
  | [] => []
  | k :: ks =>
      if bool_decide (k ∈ seen) then first_occurrences seen ks
      else k :: first_occurrences (k :: seen) ks
  end.

Section Magic.

Context `{RT : PyRuntime}.

Local Abbreviation pyvalue := (value float) (only parsing).

(** *** Operations of the interpreter *)

(** An error raised by the interpreter, as an exception object. *)
Definition builtin (e : pyerror float) : exn :=
  {| exn_is_timeout := false; exn_str := error_text e |}.

(** [s.upper()] on a [str] *)
Definition str_upper (s : str) : str := flat_map upper_char s.

(** The live binding of [key] among the items of a dict. *)
Fixpoint dict_get (d : list (str * pyvalue)) (key : str) : option pyvalue :=
  match d with
  | [] => None
  | (k, v) :: d' => if bool_decide (k = key) then Some v else dict_get d' key
  end.

(** [v.get(key, default)] *)
Definition py_get (v : pyvalue) (key : str) (default : pyvalue) : exc pyvalue :=
  match v with
  | VDict d => Return (from_option id default (dict_get d key))
  | _ => Raise (builtin (NoAttribute v (lit "get")))
  end.

(** [len(v)] *)
Definition py_len (v : pyvalue) : exc Z :=
  match v with
  | VStr s => Return (Z.of_nat (length s))
  | VList l => Return (Z.of_nat (length l))
  | VDict d => Return (Z.of_nat (length (first_occurrences [] (map fst d))))
  | _ => Raise (builtin (NoLen v))
  end.

(** [v[:n]] *)
Definition py_slice (n : nat) (v : pyvalue) : exc pyvalue :=
  match v with
  | VStr s => Return (VStr (take n s))
  | VList l => Return (VList (take n l))
  | _ => Raise (builtin (NotSliceable v))
  end.

(** The items [for x in v] goes through. *)
Definition py_iter (v : pyvalue) : exc (list pyvalue) :=
  match v with
  | VList l => Return l
  | VStr s => Return (map (fun c => VStr [c]) s)
  | VDict d => Return (map VStr (first_occurrences [] (map fst d)))
  | _ => Raise (builtin (NotIterable v))
  end.

(** [bool(v)] *)
Definition py_truthy (v : pyvalue) : bool :=
  match v with
  | VNone => false
  | VBool b => b
  | VInt z => negb (z =? 0)%Z
  | VFloat f => float_truthy f
  | VStr s => negb (bool_decide (s = []))
  | VList l => negb (bool_decide (length l = 0%nat))
  | VDict d => negb (bool_decide (length d = 0%nat))
  end.

(** [str(v)], which is also what an f-string field without a format
    specification renders. *)
Definition py_str (v : pyvalue) : str :=
  match v with
  | VNone => lit "None"
  | VBool true => lit "True"
  | VBool false => lit "False"
  | VInt z => str_of_Z z
  | VStr s => s
  | _ => py_repr v
  end.

(** [v == s] for a [str] [s] *)
Definition py_eq_str (v : pyvalue) (s : str) : bool :=
  match v with
  | VStr t => bool_decide (t = s)
  | _ => false
  end.

(** [v * 100] *)
Definition py_mul100 (v : pyvalue) : exc pyvalue :=
  match v with
  | VBool b => Return (VInt (if b then 100 else 0))
  | VInt z => Return (VInt (z * 100))
  | VFloat f => Return (VFloat (float_mul100 f))
  | VStr s => Return (VStr (py_repeat s 100))
  | VList l => Return (VList (concat (replicate 100 l)))
  | _ => Raise (builtin (BadOperand v))
  end.

(** [int(v)] *)
Definition py_int (v : pyvalue) : exc Z :=
  match v with
  | VBool b => Return (if b then 1 else 0)%Z
  | VInt z => Return z
  | VFloat f =>
      match int_of_float f with
      | Some z => Return z
      | None => Raise (builtin (BadInt v))
      end
  | VStr s =>
      match int_of_str s with
      | Some z => Return z
      | None => Raise (builtin (BadInt v))
      end
  | _ => Raise (builtin (BadInt v))
  end.

(** [format(v, spec)] for a floating-point presentation [spec], rendered
    by [render]: numbers only, an [int] going through [float]. *)
Definition py_format_float (spec : str) (render : float -> str) (v : pyvalue)
  : exc str :=
  let of_int (z : Z) :=
    match float_of_int z with
    | Some f => Return (render f)
    | None => Raise (builtin (BadFormat spec v))
    end in
  match v with
  | VBool b => of_int (if b then 1 else 0)%Z
  | VInt z => of_int z
  | VFloat f => Return (render f)
  | _ => Raise (builtin (BadFormat spec v))
  end.

(** [v.upper()] *)
Definition py_upper (v : pyvalue) : exc str :=
  match v with
  | VStr s => Return (str_upper s)
  | _ => Raise (builtin (NoAttribute v (lit "upper")))
  end.

(** [sep.join(items)]: every item has to be a [str]. *)
Fixpoint join_items (i : nat) (items : list pyvalue) : exc (list str) :=
  match items with
  | [] => Return []
  | VStr s :: items' => ss ← join_items (S i) items'; Return (s :: ss)
  | v :: _ => Raise (builtin (BadJoinItem i v))
  end.

Definition py_join_values (sep : str) (items : list pyvalue) : exc str :=
  ss ← join_items 0 items; Return (py_join sep ss).

(** [for x in xs: acc = f(acc, x)], stopping at the first exception. *)
Fixpoint exc_fold {A B : Type} (f : B -> A -> exc B) (acc : B) (xs : list A)
  : exc B :=
  match xs with
  | [] => Return acc
  | x :: xs' => acc' ← f acc x; exc_fold f acc' xs'
  end.

(** [[x for x in xs if p(x)]], stopping at the first exception. *)
Fixpoint exc_filter {A : Type} (p : A -> exc bool) (xs : list A) : exc (list A) :=
  match xs with
  | [] => Return []
  | x :: xs' =>
      keep ← p x; rest ← exc_filter p xs';
      Return (if keep : bool then x :: rest else rest)
  end.

(** [pd.DataFrame(records)] for a list of dicts: the columns are the keys in
    order of first appearance, and every record gives one row. *)
Definition pd_DataFrame (records : list (list (str * pyvalue)))
  : DataFrame float :=
  let cols := first_occurrences [] (concat (map (map fst) records)) in
  MkDataFrame cols (map (fun r => map (dict_get r) cols) records).

(** *** The notebook session *)

(** An HTTP response: its status code and what [response.json()] does. *)
Record response : Type := Response {
  status_code : Z;
  json : exc pyvalue
}.

(** The session as the magic sees it: the endpoint kept by the magic
    object, the user namespace of the shell, and everything shown or sent
    so far (oldest first). *)
Record session : Type := Session {
  api_url : str;
  user_ns : gmap str pyvalue;
  outputs : list (event float)
}.

(** A method body: it runs from a session, returns or raises, and leaves a
    session. *)
Definition M (A : Type) : Type := session -> exc A * session.

#[export] Instance M_ret : MRet M := fun A a s => (Return a, s).
#[export] Instance M_bind : MBind M := fun A B f m s =>
  match m s with
  | (Return a, s') => f a s'
  | (Raise e, s') => (Raise e, s')
  end.

(** A computation without effects, run inside a method. *)
Definition lift {A : Type} (c : exc A) : M A := fun s => (c, s).

Definition emit (e : event float) : M unit := fun s =>
  (Return (), Session (api_url s) (user_ns s) (outputs s ++ [e])).

Definition display_HTML (html : str) : M unit := emit (DisplayHTML html).
Definition display_Markdown (md : str) : M unit := emit (DisplayMarkdown md).
Definition display_DataFrame (df : DataFrame float) : M unit :=
  emit (DisplayFrame df).
Definition print (text : str) : M unit := emit (Print text).

(** [self.api_url] and [self.api_url = url] *)
Definition get_api_url : M str := fun s => (Return (api_url s), s).
Definition set_api_url (url : str) : M unit := fun s =>
  (Return (), Session url (user_ns s) (outputs s)).

(** [self.shell.user_ns[name] = v] *)
Definition set_user_ns (name : str) (v : pyvalue) : M unit := fun s =>
  (Return (), Session (api_url s) (<[name := v]> (user_ns s)) (outputs s)).

(** [try: body  except requests.exceptions.Timeout: on_timeout
    except Exception as e: on_error(e)] *)
Definition try_except {A : Type} (body : M A) (on_timeout : M A)
  (on_error : exn -> M A) : M A := fun s =>
  match body s with
  | (Return a, s') => (Return a, s')
  | (Raise e, s') =>
      if exn_is_timeout e then on_timeout s' else on_error e s'
  end.

(** The server side of [requests.post]: what a request with this URL, JSON
    body and timeout ends in. *)
Variable requests_post : str -> pyvalue -> Z -> exc response.

(** [requests.post(url, json=body, timeout=timeout)] *)
Definition post (url : str) (body : pyvalue) (timeout : Z) : M response :=
  emit (HttpPost url body timeout);; lift (requests_post url body timeout).

(** [response.json()] *)
Definition response_json (r : response) : M pyvalue :=
  emit ResponseJson;; lift (json r).

(** *** The formatting routines *)

(** [for i, x in enumerate(xs, i): body(i, x)] *)
Fixpoint for_enumerate {A : Type} (i : Z) (xs : list A) (body : Z -> A -> M unit)
  : M unit :=
  match xs with
  | [] => mret ()
  | x :: xs' => body i x;; for_enumerate (i + 1)%Z xs' body
  end.

(** [GaiaLabMagic._display_as_dataframe] *)
Definition _display_as_dataframe (result : pyvalue) : M unit :=
  genes_data ← lift (
    genes ← py_get result (lit "genes") (VList []);
    items ← py_iter genes;
    exc_map (fun gene =>
      symbol ← py_get gene (lit "symbol") VNone;
      name ← py_get gene (lit "name") VNone;
      score ← py_get gene (lit "importanceScore") (VInt 0);
      scaled ← py_mul100 score;
      importance ← py_format_float (lit ".0f") format_0f scaled;
      uniprot ← py_get gene (lit "uniprotId") VNone;
      Return [ (lit "Symbol", symbol);
               (lit "Name", name);
               (lit "Importance", VStr (importance ++ lit "%"));
               (lit "UniProt", uniprot) ]) items);
  match genes_data with
  | [] => mret ()
  | _ :: _ =>
      print (lit "\n\#1F9EC; GENES:");;
      display_DataFrame (pd_DataFrame genes_data)
  end;;
  pathways_data ← lift (
    pathways ← py_get result (lit "pathways") (VList []);
    first ← py_slice 10 pathways;
    items ← py_iter first;
    exc_map (fun pathway =>
      name ← py_get pathway (lit "name") VNone;
      pvalue ← py_get pathway (lit "pvalue") (VInt 0);
      significance ← py_get pathway (lit "significance") VNone;
      confidence ← py_get pathway (lit "confidence") VNone;
      members ← py_get pathway (lit "genesInPathway") (VList []);
      count ← py_len members;
      Return [ (lit "Pathway", name);
               (lit "P-value", pvalue);
               (lit "Significance", significance);
               (lit "Confidence", confidence);
               (lit "Genes", VInt count) ]) items);
  match pathways_data with
  | [] => mret ()
  | _ :: _ =>
      print (lit "\n\#1F52C; PATHWAYS:");;
      display_DataFrame (pd_DataFrame pathways_data)
  end.

(** [GaiaLabMagic._display_simple] *)
Definition _display_simple (result : pyvalue) (genes : list str) (disease : str)
  : M unit :=
  print (lit "\n\#1F4CA; GaiaLab Analysis: " ++ disease);;
  print (py_repeat (lit "=") 70);;
  text ← lift (
    gs ← py_get result (lit "genes") (VList []);
    items ← py_iter gs;
    symbols ← exc_map (fun g => py_get g (lit "symbol") VNone) items;
    joined ← py_join_values (lit ", ") symbols;
    Return (lit "Genes: " ++ joined));
  print text;;
  text ← lift (
    pathways ← py_get result (lit "pathways") (VList []);
    n ← py_len pathways;
    Return (lit "Pathways: " ++ str_of_Z n));
  print text;;
  text ← lift (
    citations ← py_get result (lit "citations") (VList []);
    n ← py_len citations;
    Return (lit "Papers: " ++ str_of_Z n));
  print text;;
  text ← lift (
    time ← py_get result (lit "analysisTime") (VStr (lit "N/A"));
    Return (lit "Time: " ++ py_str time));
  print text;;
  print (lit "\n\#1F52C; Top Pathways:");;
  top ← lift (
    pathways ← py_get result (lit "pathways") (VList []);
    first ← py_slice 5 pathways;
    py_iter first);
  for_enumerate 1 top (fun i pathway =>
    text ← lift (
      name ← py_get pathway (lit "name") VNone;
      pvalue ← py_get pathway (lit "pvalue") (VInt 0);
      p ← py_format_float (lit ".2e") format_2e pvalue;
      Return (str_of_Z i ++ lit ". " ++ py_str name ++ lit " (p=" ++ p ++ lit ")"));
    print text).

(** [GaiaLabMagic._display_rich] *)
Definition _display_rich (result : pyvalue) (genes : list str) (disease : str)
  : M unit :=
  html ← lift (
    n_genes ← py_get result (lit "genes") (VList []) ≫= py_len;
    n_pathways ← py_get result (lit "pathways") (VList []) ≫= py_len;
    n_citations ← py_get result (lit "citations") (VList []) ≫= py_len;
    time ← py_get result (lit "analysisTime") (VStr (lit "N/A"));
    source ← py_get result (lit "dataSource") (VDict []);
    ai ← py_get source (lit "ai") (VStr (lit "GPT-4o"));
    let html :=
      lit "\n"
      ++ lit "        <div style=\qfont-family: sans-serif;\q>\n"
      ++ lit "            <div style=\qbackground: #f8f9fa; padding: 20px; border-radius: 10px; margin: 15px 0;\q>\n"
      ++ lit "                <h2 style=\qcolor: #667eea;\q>\#1F4CA; Analysis Complete!</h2>\n"
      ++ lit "                <p><strong>Disease Context:</strong> "
      ++ disease
      ++ lit "</p>\n"
      ++ lit "                <p><strong>Genes Analyzed:</strong> "
      ++ str_of_Z n_genes
      ++ lit "</p>\n"
      ++ lit "                <p><strong>Pathways Found:</strong> "
      ++ str_of_Z n_pathways
      ++ lit "</p>\n"
      ++ lit "                <p><strong>Papers Reviewed:</strong> "
      ++ str_of_Z n_citations
      ++ lit "</p>\n"
      ++ lit "                <p><strong>Analysis Time:</strong> "
      ++ py_str time
      ++ lit "</p>\n"
      ++ lit "                <p><strong>AI Model:</strong> "
      ++ py_str ai
      ++ lit "</p>\n"
      ++ lit "            </div>\n"
      ++ lit "\n"
      ++ lit "            <h3 style=\qcolor: #667eea;\q>\#1F9EC; Gene Signals</h3>\n"
      ++ lit "        " in
    top_genes ← (py_get result (lit "genes") (VList []) ≫= py_slice 5) ≫= py_iter;
    html ← exc_fold (fun (html : str) (gene : pyvalue) =>
      importance ← (py_get gene (lit "importanceScore") (VInt 0) ≫= py_mul100) ≫= py_int;
      symbol ← py_get gene (lit "symbol") VNone;
      name ← py_get gene (lit "name") (VStr (lit "N/A"));
      function ← py_get gene (lit "function") (VStr (lit "No function available"))
                   ≫= py_slice 200;
      Return (html
        ++ lit "\n"
        ++ lit "            <div style=\qbackground: white; border-left: 4px solid #667eea; padding: 15px; margin: 10px 0;\q>\n"
        ++ lit "                <h4>"
        ++ py_str symbol
        ++ lit " - "
        ++ py_str name
        ++ lit "</h4>\n"
        ++ lit "                <p><em>"
        ++ py_str function
        ++ lit "...</em></p>\n"
        ++ lit "                <p><strong>Importance:</strong> "
        ++ str_of_Z importance
        ++ lit "%</p>\n"
        ++ lit "            </div>\n"
        ++ lit "            ")) html top_genes;
    (* Pathways *)
    significant_pathways ←
      (py_get result (lit "pathways") (VList []) ≫= py_iter) ≫=
      exc_filter (fun p : pyvalue =>
        significance ← py_get p (lit "significance") VNone;
        Return (py_eq_str significance (lit "significant")));
    html ←
      match significant_pathways with
      | [] => Return html
      | _ :: _ =>
          exc_fold (fun (html : str) (pathway : pyvalue) =>
            pvalue ← py_get pathway (lit "pvalue") (VInt 0);
            name ← py_get pathway (lit "name") VNone;
            p ← py_format_float (lit ".2e") format_2e pvalue;
            confidence ← py_get pathway (lit "confidence") (VStr (lit "N/A")) ≫= py_upper;
            rationale ← py_get pathway (lit "rationale") (VStr (lit "")) ≫= py_slice 200;
            Return (html
              ++ lit "\n"
              ++ lit "                <div style=\qbackground: white; border-left: 4px solid #667eea; padding: 15px; margin: 10px 0;\q>\n"
              ++ lit "                    <h4>"
              ++ py_str name
              ++ lit "</h4>\n"
              ++ lit "                    <p><strong>P-value:</strong> <code>"
              ++ p
              ++ lit "</code></p>\n"
              ++ lit "                    <p><strong>Confidence:</strong> "
              ++ confidence
              ++ lit "</p>\n"
              ++ lit "                    <p>"
              ++ py_str rationale
              ++ lit "...</p>\n"
              ++ lit "                </div>\n"
              ++ lit "                "))
            (html ++ lit "<h3 style=\qcolor: #667eea;\q>\#1F52C; Significant Pathways (p < 0.05)</h3>")
            (take 5 significant_pathways)
      end;
    (* Therapeutic insights *)
    therapeutics ← py_get result (lit "strategies") (VList []);
    html ←
      (if py_truthy therapeutics then
         top ← py_slice 3 therapeutics ≫= py_iter;
         exc_fold (fun (html : str) (strategy : pyvalue) =>
           label ← py_get strategy (lit "label") VNone;
           risk ← py_get strategy (lit "riskLevel") (VStr (lit "N/A")) ≫= py_upper;
           confidence ← py_get strategy (lit "confidence") (VStr (lit "N/A")) ≫= py_upper;
           rationale ← py_get strategy (lit "rationale") (VStr (lit "")) ≫= py_slice 200;
           Return (html
             ++ lit "\n"
             ++ lit "                <div style=\qbackground: white; border-left: 4px solid #667eea; padding: 15px; margin: 10px 0;\q>\n"
             ++ lit "                    <h4>"
             ++ py_str label
             ++ lit "</h4>\n"
             ++ lit "                    <p><strong>Risk:</strong> "
             ++ risk
             ++ lit " |\n"
             ++ lit "                       <strong>Confidence:</strong> "
             ++ confidence
             ++ lit "</p>\n"
             ++ lit "                    <p>"
             ++ py_str rationale
             ++ lit "...</p>\n"
             ++ lit "                </div>\n"
             ++ lit "                "))
           (html ++ lit "<h3 style=\qcolor: #667eea;\q>\#1F48A; Therapeutic Insights</h3>")
           top
       else Return html);
    Return (html
      ++ lit "\n"
      ++ lit "            <div style=\qbackground: #f8f9fa; padding: 15px; border-radius: 10px; margin: 20px 0; text-align: center;\q>\n"
      ++ lit "                <p style=\qcolor: #666; margin: 5px 0;\q>\n"
      ++ lit "                    \#26A0;\#FE0F; <strong>Research Use Only:</strong> AI-generated insights require expert validation\n"
      ++ lit "                </p>\n"
      ++ lit "                <p style=\qcolor: #999; font-size: 12px; margin: 5px 0;\q>\n"
      ++ lit "                    \#1F31F; Developed by Oluwafemi Idiakhoa | Powered by UniProt, KEGG, PubMed & AI\n"
      ++ lit "                </p>\n"
      ++ lit "            </div>\n"
      ++ lit "        </div>\n"
      ++ lit "        "));
  display_HTML html.

(** *** The magics *)

(** [GaiaLabMagic.__init__]: the magic object of a shell whose namespace
    is [ns]. *)
Definition __init__ (ns : gmap str pyvalue) : session :=
  {| api_url := lit "http://localhost:8787/analyze";
     user_ns := ns;
     outputs := [] |}.

(** [GaiaLabMagic.gaialab_config] *)
Definition gaialab_config (line : str) : M unit :=
  set_api_url (py_strip line);;
  url ← get_api_url;
  print (lit "\#2705; GaiaLab API configured: " ++ url).

(** [[g.strip().upper() for g in line.split(',') if g.strip()]] *)
Definition parse_genes (line : str) : list str :=
  map (fun g => str_upper (py_strip g))
      (filter (fun g => py_strip g ≠ []) (py_split 44 None line)).

(** One round of the loop over the lines of the cell body. *)
Definition parse_param (params : gmap str str) (line : str)
  : exc (gmap str str) :=
  if py_contains 58 line then
    match py_split 58 (Some 1%nat) line with
    | [key; value] => Return (<[py_strip key := py_strip value]> params)
    | parts => Raise (builtin (BadUnpack (length parts)))
    end
  else Return params.

(** [params = {}; for line in cell.strip().split('\n'): ...] *)
Definition parse_params (cell : str) : exc (gmap str str) :=
  exc_fold parse_param ∅ (py_split 10 None (py_strip cell)).

(** [params.get(key, default)] *)
Definition params_get (params : gmap str str) (key default : str) : str :=
  from_option id default (params !! key).

(** The texts and the request of [GaiaLabMagic.gaialab], named for the
    statements below. *)

(** line 51 *)
Definition no_genes_notice : str :=
  lit "<p style=\qcolor:red\q>\#274C; Error: No genes provided</p>".

(** lines 66-74 *)
Definition analyzing_message (genes : list str) (disease_context : str) : str :=
  lit "\n"
  ++ lit "            <div style=\qpadding: 15px; background: linear-gradient(135deg, #667eea 0%, #764ba2 100%);\n"
  ++ lit "                        color: white; border-radius: 10px; margin: 10px 0;\q>\n"
  ++ lit "                <h3>\#1F9EC; GaiaLab Analysis</h3>\n"
  ++ lit "                <p><strong>Genes:</strong> "
  ++ py_join (lit ", ") genes
  ++ lit "</p>\n"
  ++ lit "                <p><strong>Context:</strong> "
  ++ disease_context
  ++ lit "</p>\n"
  ++ lit "                <p>\#23F1;\#FE0F; Analyzing... This takes 60-90 seconds</p>\n"
  ++ lit "            </div>\n"
  ++ lit "        ".

(** lines 80-84: the [json=] argument *)
Definition request_body (genes : list str) (disease_context audience : str)
  : pyvalue :=
  VDict [ (lit "genes", VList (map VStr genes));
          (lit "diseaseContext", VStr disease_context);
          (lit "audience", VStr audience) ].

(** line 85: the [timeout=] argument *)
Definition request_timeout : Z := 180.

(** line 89 *)
Definition api_error_notice (code : Z) : str :=
  lit "<p style=\qcolor:red\q>\#274C; API Error: " ++ str_of_Z code ++ lit "</p>".

(** line 104 *)
Definition stored_note : str :=
  lit "_Results stored in `gaialab_result` variable_".

(** line 107 *)
Definition timeout_notice : str :=
  lit "<p style=\qcolor:red\q>\#274C; Request timeout. Analysis takes up to 2 minutes.</p>".

(** line 109 *)
Definition error_notice (e : exn) : str :=
  lit "<p style=\qcolor:red\q>\#274C; Error: " ++ exn_str e ++ lit "</p>".

(** lines 95-100: display results based on format *)
Definition display_results (output_format : str) (result : pyvalue)
  (genes : list str) (disease_context : str) : M unit :=
  if bool_decide (output_format = lit "dataframe") then
    _display_as_dataframe result
  else if bool_decide (output_format = lit "simple") then
    _display_simple result genes disease_context
  else (* rich *)
    _display_rich result genes disease_context.

(** lines 65-109 of [GaiaLabMagic.gaialab], as a function of the locals
    [genes], [disease_context], [audience] and [output_format] they read. *)
Definition analyze (genes : list str) (disease_context audience output_format : str)
  : M unit :=
  (* Display analyzing message *)
  display_HTML (analyzing_message genes disease_context);;
  try_except
    ((* Call GaiaLab API *)
     url ← get_api_url;
     response ← post url (request_body genes disease_context audience)
                  request_timeout;
     if bool_decide (status_code response ≠ 200%Z) then
       display_HTML (api_error_notice (status_code response))
     else
       result ← response_json response;
       display_results output_format result genes disease_context;;
       (* Store result in namespace for further analysis *)
       set_user_ns (lit "gaialab_result") result;;
       display_Markdown stored_note)
    (display_HTML timeout_notice)
    (fun e => display_HTML (error_notice e)).

(** [GaiaLabMagic.gaialab], lines 47-63, continued by [analyze] *)
Definition gaialab (line cell : str) : M unit :=
  (* Parse genes from line *)
  let genes := parse_genes line in
  match genes with
  | [] => display_HTML no_genes_notice
  | _ :: _ =>
      (* Parse parameters from cell *)
      params ← lift (parse_params cell);
      let disease_context := params_get params (lit "disease") (lit "cancer") in
      let audience := params_get params (lit "audience") (lit "researcher") in
      let output_format := params_get params (lit "format") (lit "rich") in
      analyze genes disease_context audience output_format
  end.

(** What the server answers to the request of the invocation
    [%%gaialab line] with body [cell], started in session [s]. *)
Definition server_reply (line cell : str) (s : session) : exc response :=
  params ← parse_params cell;
  requests_post (api_url s)
    (request_body (parse_genes line)
       (params_get params (lit "disease") (lit "cancer"))
       (params_get params (lit "audience") (lit "researcher")))
    request_timeout.

(** A session with more output. *)
Definition add_outputs (s : session) (evs : list (event float)) : session :=
  {| api_url := api_url s; user_ns := user_ns s; outputs := outputs s ++ evs |}.

End Magic.

(** [load_ipython_extension], for a shell whose namespace is [ns]:
    registering the magics builds the magic object, then the three lines
    are printed. *)
Definition load_ipython_extension `{RT : PyRuntime} (ns : gmap str (value float))
  : exc unit * session :=
  (print (lit "\#2705; GaiaLab Jupyter extension loaded!");;
   print (lit "   Usage: %%gaialab TP53, BRCA1");;
   print (lit "          disease: breast cancer")) (__init__ ns).

(** [d.get(key, default)] on the items [d] of a dict. *)
Definition dict_field `{RT : PyRuntime} (d : list (str * value float)) (key : str)
  (default : value float) : value float :=
  from_option id default (dict_get d key).




(** A p-value the floating-point presentations can render: a number that
    converts to a [float]. *)
Definition pvalue_ok `{RT : PyRuntime} (pvalue : value float) : Prop :=
  match pvalue with
  | VBool b => is_Some (float_of_int (if b then 1 else 0))
  | VInt z => is_Some (float_of_int z)
  | VFloat _ => True
  | _ => False
  end.

(** [line] is the line the simple routine prints for [pathway] at rank [i]:
    the rank, the name ([None] when missing) and the p-value (0 when
    missing) in scientific notation. *)
Definition is_pathway_line `{RT : PyRuntime} (i : Z) (pathway : value float)
  (line : str) : Prop :=
  ∃ d p,
    pathway = VDict d ∧
    py_format_float (lit ".2e") format_2e (dict_field d (lit "pvalue") (VInt 0))
    = Return p ∧
    line = str_of_Z i ++ lit ". " ++ py_str (dict_field d (lit "name") VNone)
           ++ lit " (p=" ++ p ++ lit ")".

(** ** A runtime to run the model on

    ASCII case mapping and whole-valued floating-point numbers; [repr] and
    the error texts are placeholders. *)

Definition ascii_upper (c : char) : str :=
  if (97 <=? c) && (c <=? 122) then [c - 32] else [c].

Definition ascii_runtime : PyRuntime := {|
  float := Z;
  upper_char := ascii_upper;
  float_mul100 := fun f => (f * 100)%Z;
  float_of_int := Some;
  int_of_float := Some;
  int_of_str := fun _ => None;
  float_truthy := fun f => negb (f =? 0)%Z;
  format_0f := str_of_Z;
  format_2e := fun f => str_of_Z f ++ lit "e+00";
  py_repr := fun _ => lit "<repr>";
  error_text := fun _ => lit "<error>"
|}.

(** A server that gives the same answer to every request. *)
Definition constant_server `{RT : PyRuntime} (answer : exc response)
  : str -> value float -> Z -> exc response :=
  fun _ _ _ => answer.

(** ** Vocabulary of the specification *)

(** A string of whitespace only (the empty string included). *)
Definition whitespace_only (s : str) : Prop := Forall (fun c => is_space c = true) s.

#[global] Instance whitespace_only_dec (s : str) : Decision (whitespace_only s).
Proof. unfold whitespace_only. apply _. Defined.

(** [frags] are the [sep]-separated fragments of [line]: put back together
    with [sep] between them they give [line], and none contains [sep]. *)
Definition fragments_of (sep : char) (line : str) (frags : list str) : Prop :=
  frags ≠ [] ∧ Forall (fun f => sep ∉ f) frags ∧ py_join [sep] frags = line.

(** [t] is [f] with the surrounding whitespace trimmed: [f] is [t] between
    two runs of whitespace, and [t] neither starts nor ends with
    whitespace. *)
Definition trimmed_of (f t : str) : Prop :=
  ∃ pre post,
    f = pre ++ t ++ post ∧ whitespace_only pre ∧ whitespace_only post ∧
    (∀ c, head t = Some c → is_space c = false) ∧
    (∀ c, last t = Some c → is_space c = false).

(** The parameter mapping built line by line from [lines], starting from
    [m]: a line without a colon contributes nothing; a line with a colon
    binds the trimmed text before its first colon to the trimmed text after
    it. *)
Inductive built_from : list str -> gmap str str -> gmap str str -> Prop :=
| built_done m :
    built_from [] m m
| built_skip line lines m m' :
    58 ∉ line →
    built_from lines m m' →
    built_from (line :: lines) m m'
| built_bind key value lines m m' :
    58 ∉ key →
    built_from lines (<[py_strip key := py_strip value]> m) m' →
    built_from ((key ++ 58 :: value) :: lines) m m'.

(** An event is an HTTP request. *)
Definition is_post {float : Type} (e : event float) : bool :=
  match e with
  | HttpPost _ _ _ => true
  | _ => false
  end.

(** An event is something shown in the notebook. *)
Definition is_shown {float : Type} (e : event float) : bool :=
  match e with
  | DisplayHTML _ | DisplayMarkdown _ | DisplayFrame _ | Print _ => true
  | _ => false
  end.

(** The notice the two [except] clauses of [gaialab] show for [e]. *)
Definition exception_notice (e : exn) : str :=
  if exn_is_timeout e then timeout_notice else error_notice e.

(** [m] does nothing but show things: whatever the session, it appends the
    same events, all of them displays or prints, and ends the same way. *)
Definition shows `{RT : PyRuntime} {A : Type} (m : M A) : Prop :=
  ∃ (r : exc A) (evs : list (event float)),
    (∀ s, m s = (r, add_outputs s evs)) ∧ Forall (fun e => is_shown e = true) evs.

(** The formatting routine that the invocation [%%gaialab line] with body
    [cell] runs on the parsed reply [result]. *)
Definition formatting_of `{RT : PyRuntime} (line cell : str) (result : value float)
  : M unit :=
  params ← lift (parse_params cell);
  display_results (params_get params (lit "format") (lit "rich")) result
    (parse_genes line) (params_get params (lit "disease") (lit "cancer")).

(** The invocation gets as far as storing [result]: there are genes, the
    server answers 200 with a body that parses to [result], and the
    formatting routine returns. *)
Definition stores `{RT : PyRuntime}
  (requests_post : str -> value float -> Z -> exc response)
  (line cell : str) (s : session) (result : value float) : Prop :=
  parse_genes line ≠ [] ∧
  ∃ r, server_reply requests_post line cell s = Return r ∧
       status_code r = 200%Z ∧
       json r = Return result ∧
       ∀ s1, (formatting_of line cell result s1).1 = Return ().

(** The column labels of the two tables of [_display_as_dataframe]. *)
Definition genes_columns : list str :=
  [lit "Symbol"; lit "Name"; lit "Importance"; lit "UniProt"].

Definition pathways_columns : list str :=
  [lit "Pathway"; lit "P-value"; lit "Significance"; lit "Confidence"; lit "Genes"].

(** An importance score the genes table can render: a number whose
    hundredfold converts to a [float]. *)
Definition score_ok `{RT : PyRuntime} (score : value float) : Prop :=
  match score with
  | VBool b => is_Some (float_of_int (if b then 100 else 0))
  | VInt z => is_Some (float_of_int (z * 100))
  | VFloat _ => True
  | _ => False
  end.

(** An entry of [genes] the genes table can render: an object whose
    [importanceScore] is absent or [score_ok]. *)
Definition gene_ok `{RT : PyRuntime} (gene : value float) : Prop :=
  ∃ d, gene = VDict d ∧
       score_ok (from_option id (VInt 0) (dict_get d (lit "importanceScore"))).

(** A value [len] accepts. *)
Definition sized {float : Type} (v : value float) : Prop :=
  match v with
  | VStr _ | VList _ | VDict _ => True
  | _ => False
  end.

(** An entry of [pathways] the pathways table can render: an object whose
    [genesInPathway] is absent or [sized]. *)
Definition pathway_ok `{RT : PyRuntime} (pathway : value float) : Prop :=
  ∃ d, pathway = VDict d ∧
       sized (from_option id (VList []) (dict_get d (lit "genesInPathway"))).

(** What is shown for a table of [n] rows: nothing when [n = 0]; otherwise
    its title and one frame with the columns [cols] and [n] rows, a cell per
    column in each. *)
Definition table_shown {float : Type} (title : str) (cols : list str) (n : nat)
  (evs : list (event float)) : Prop :=
  match n with
  | O => evs = []
  | S _ =>
      ∃ df, evs = [Print title; DisplayFrame df] ∧
            columns df = cols ∧
            length (rows df) = n ∧
            Forall (fun row => length row = length cols) (rows df)
  end.
(** ** Sample sessions

    Replies and servers on which the statements below are run, all over
    [ascii_runtime]. *)

Definition sample_session : @session ascii_runtime := @__init__ ascii_runtime ∅.

(** A session in which an earlier result is still bound. *)
Definition stale_session : @session ascii_runtime :=
  {| api_url := lit "http://localhost:8787/analyze";
     user_ns := {[ lit "gaialab_result" := VInt 7 ]};
     outputs := [] |}.

(** A 200 response whose body is the object [{}]. *)
Definition empty_reply : @response ascii_runtime :=
  @Response ascii_runtime 200 (Return (VDict [])).

(** A 200 response with one gene whose score is a string. *)
Definition text_score_reply : @response ascii_runtime :=
  @Response ascii_runtime 200
    (Return (VDict [ (lit "genes",
                      VList [VDict [ (lit "symbol", VStr (lit "TP53"));
                                     (lit "importanceScore", VStr (lit "0.9")) ]]) ])).

(** The body of a 200 response with one gene and one pathway. *)
Definition sample_genes : list (value Z) :=
  [ VDict [ (lit "symbol", VStr (lit "TP53"));
            (lit "name", VStr (lit "Cellular tumor antigen p53"));
            (lit "importanceScore", VInt 1);
            (lit "uniprotId", VStr (lit "P04637")) ] ].

Definition sample_pathways : list (value Z) :=
  [ VDict [ (lit "name", VStr (lit "p53 signaling pathway"));
            (lit "pvalue", VInt 0);
            (lit "significance", VStr (lit "significant"));
            (lit "confidence", VStr (lit "high"));
            (lit "genesInPathway", VList [VStr (lit "TP53")]) ] ].

Definition sample_result : value Z :=
  VDict [ (lit "genes", VList sample_genes);
          (lit "pathways", VList sample_pathways) ].

Definition sample_reply : @response ascii_runtime :=
  @Response ascii_runtime 200 (Return sample_result).

(** A 500 response; its body would parse. *)
Definition failed_reply : @response ascii_runtime :=
  @Response ascii_runtime 500 (Return sample_result).

(** A 200 response whose body does not parse. *)
Definition garbled_reply : @response ascii_runtime :=
  @Response ascii_runtime 200 (Raise (Exn false (lit "Expecting value: line 1 column 1 (char 0)"))).

(** The exception of a request that timed out. *)
Definition read_timeout : exn :=
  Exn true (lit "Read timed out. (read timeout=180)").

(** The frames among the events. *)
Definition frames_of {float : Type} (evs : list (event float))
  : list (DataFrame float) :=
  flat_map (fun e => match e with DisplayFrame df => [df] | _ => [] end) evs.

Example lit_escapes : lit "a\q\n\\\#1F4CA;z" = [97; 34; 10; 92; 128202; 122].
Proof. reflexivity. Qed.

Example str_of_Z_neg : str_of_Z (-404) = lit "-404".
Proof. reflexivity. Qed.

Example str_of_Z_zero : str_of_Z 0 = lit "0".
Proof. reflexivity. Qed.

Example split_commas :
  py_split 44 None (lit "a,,b,") = [lit "a"; lit ""; lit "b"; lit ""].
Proof. reflexivity. Qed.

Example split_first_colon :
  py_split 58 (Some 1%nat) (lit "url: http://h:1") = [lit "url"; lit " http://h:1"].
Proof. reflexivity. Qed.

Example strip_both : py_strip (lit " \n tp53 \#3000;") = lit "tp53".
Proof. reflexivity. Qed.

(** * Properties *)

(** ** Strings *)

Section Strings.

Implicit Types (s f t : str) (c sep : char).

Lemma py_contains_spec c s : py_contains c s = true ↔ c ∈ s.
Proof.
  unfold py_contains. rewrite existsb_exists. split.
  - intros (x & Hin & Heq). apply N.eqb_eq in Heq as ->.
    by apply list_elem_of_In.
  - intros Hin. exists c. split; [by apply list_elem_of_In | apply N.eqb_refl].
Qed.

Lemma py_contains_false c s : py_contains c s = false ↔ c ∉ s.
Proof.
  rewrite <- py_contains_spec. destruct (py_contains c s); naive_solver.
Qed.

(** *** [strip] *)

Lemma lstrip_decompose s :
  ∃ pre, s = pre ++ lstrip s ∧ whitespace_only pre ∧
         ∀ c, head (lstrip s) = Some c → is_space c = false.
Proof.
  induction s as [|c s (pre & Heq & Hpre & Hhead)]; simpl.
  - exists []. repeat split; [constructor | done].
  - destruct (is_space c) eqn:Hc.
    + exists (c :: pre). repeat split; [by rewrite Heq at 1 | by constructor | done].
    + exists []. repeat split; [constructor | naive_solver].
Qed.

Lemma lstrip_whitespace s : whitespace_only s → lstrip s = [].
Proof. induction 1 as [|c s Hc _ IH]; simpl; [done | by rewrite Hc]. Qed.

Lemma lstrip_head s c : head s = Some c → is_space c = false → lstrip s = s.
Proof. destruct s as [|c' s]; simpl; [done|]. intros [= ->] ->. done. Qed.

Lemma whitespace_only_reverse s : whitespace_only s → whitespace_only (reverse s).
Proof. unfold whitespace_only. by rewrite Forall_reverse. Qed.

Lemma rstrip_decompose s :
  ∃ post, s = rstrip s ++ post ∧ whitespace_only post ∧
          ∀ c, last (rstrip s) = Some c → is_space c = false.
Proof.
  destruct (lstrip_decompose (reverse s)) as (pre & Heq & Hpre & Hhead).
  exists (reverse pre). unfold rstrip. split; [|split].
  - rewrite <- reverse_app, <- Heq. by rewrite reverse_involutive.
  - by apply whitespace_only_reverse.
  - intros c. rewrite last_reverse. apply Hhead.
Qed.

(** [py_strip] computes the trimmed string of the specification. *)
Lemma py_strip_trimmed f : trimmed_of f (py_strip f).
Proof.
  destruct (lstrip_decompose f) as (pre & Hf & Hpre & Hhead).
  destruct (rstrip_decompose (lstrip f)) as (post & Hl & Hpost & Hlast).
  exists pre, post. unfold py_strip. repeat split; try done.
  - by rewrite <- Hl.
  - intros c Hc. apply Hhead. rewrite Hl.
    destruct (rstrip (lstrip f)); [done | by simpl in *].
Qed.

Lemma whitespace_only_app s1 s2 :
  whitespace_only (s1 ++ s2) ↔ whitespace_only s1 ∧ whitespace_only s2.
Proof. apply Forall_app. Qed.

(** A fragment is dropped exactly when it is whitespace only. *)
Lemma py_strip_empty f : py_strip f = [] ↔ whitespace_only f.
Proof.
  split.
  - intros Hnil. destruct (py_strip_trimmed f) as (pre & post & Hf & Hpre & Hpost & _).
    rewrite Hnil in Hf. rewrite Hf. by apply whitespace_only_app.
  - intros Hf. unfold py_strip. by rewrite (lstrip_whitespace _ Hf).
Qed.

(** The trimmed string is unique. *)
Lemma trimmed_of_strip f t : trimmed_of f t → t = py_strip f.
Proof.
  intros (pre & post & -> & Hpre & Hpost & Hhead & Hlast).
  unfold py_strip.
  assert (lstrip (pre ++ t ++ post) = lstrip (t ++ post)) as ->.
  { clear -Hpre. induction Hpre as [|c pre Hc _ IH]; simpl; [done | by rewrite Hc]. }
  destruct t as [|c t].
  { simpl. rewrite (lstrip_whitespace _ Hpost). done. }
  rewrite (lstrip_head _ c); [|done|by apply Hhead].
  unfold rstrip. rewrite reverse_app.
  assert (∀ u, lstrip (reverse post ++ u) = lstrip u) as ->.
  { intros u. apply whitespace_only_reverse in Hpost.
    induction Hpost as [|d p Hd _ IH]; simpl; [done | by rewrite Hd]. }
  destruct (last (c :: t)) as [d|] eqn:Hd.
  - rewrite (lstrip_head _ d); [by rewrite reverse_involutive| |by apply Hlast].
    by rewrite head_reverse.
  - by apply last_None in Hd.
Qed.

(** *** [split] and [join] *)

Lemma py_split_no_sep sep s : sep ∉ s → py_split sep None s = [s].
Proof.
  induction s as [|c s IH]; simpl; [done|].
  intros Hnin. apply not_elem_of_cons in Hnin as [Hne Hnin].
  destruct (N.eqb_spec c sep) as [->|_]; [done|].
  by rewrite IH.
Qed.

Lemma py_split_at_sep sep f rest :
  sep ∉ f → py_split sep None (f ++ sep :: rest) = f :: py_split sep None rest.
Proof.
  induction f as [|c f IH]; simpl.
  - intros _. by rewrite N.eqb_refl.
  - intros Hnin. apply not_elem_of_cons in Hnin as [Hne Hnin].
    destruct (N.eqb_spec c sep) as [->|_]; [done|].
    by rewrite IH.
Qed.

(** With [maxsplit = 1] only the first separator splits. *)
Lemma py_split_first sep key value :
  sep ∉ key → py_split sep (Some 1%nat) (key ++ sep :: value) = [key; value].
Proof.
  induction key as [|c key IH]; simpl.
  - intros _. rewrite N.eqb_refl. by destruct value.
  - intros Hnin. apply not_elem_of_cons in Hnin as [Hne Hnin].
    destruct (N.eqb_spec c sep) as [->|_]; [done|].
    by rewrite IH.
Qed.

Lemma py_split_join sep frags :
  frags ≠ [] → Forall (fun f => sep ∉ f) frags →
  py_split sep None (py_join [sep] frags) = frags.
Proof.
  intros Hne Hall. induction Hall as [|f frags Hf Hall IH]; [done|].
  destruct frags as [|g frags].
  - simpl. by apply py_split_no_sep.
  - change (py_join [sep] (f :: g :: frags)) with (f ++ sep :: py_join [sep] (g :: frags)).
    rewrite py_split_at_sep by done. by rewrite IH.
Qed.

Lemma cons_head_join sep c frags :
  frags ≠ [] → py_join [sep] (cons_head c frags) = c :: py_join [sep] frags.
Proof. destruct frags as [|f [|g frags]]; done. Qed.

(** Every line has fragments: the ones [split] returns. *)
Lemma py_split_fragments sep line : fragments_of sep line (py_split sep None line).
Proof.
  induction line as [|c line (Hne & Hall & Hjoin)]; simpl.
  - repeat split; [done | by repeat constructor; apply not_elem_of_nil].
  - destruct (N.eqb_spec c sep) as [->|Hc].
    + repeat split; [done | constructor; [apply not_elem_of_nil | done] |].
      destruct (py_split sep None line) eqn:E; [done|].
      change (py_join [sep] ([] :: l :: l0)) with (sep :: py_join [sep] (l :: l0)).
      by rewrite Hjoin.
    + destruct (py_split sep None line) as [|f fs] eqn:E; [done|].
      repeat split; [done | |].
      * apply Forall_cons in Hall as [Hf Hfs]. constructor; [|done].
        apply not_elem_of_cons. split; [congruence | done].
      * rewrite <- Hjoin. by destruct fs.
Qed.

(** The fragments of a line are unique. *)
Lemma fragments_of_split sep line frags :
  fragments_of sep line frags → frags = py_split sep None line.
Proof. intros (Hne & Hall & <-). by rewrite py_split_join. Qed.

End Strings.

(** ** Parsing the line and the cell body *)

Section Parsing.

Context `{RT : PyRuntime}.

Lemma parse_genes_split line :
  parse_genes line =
  map (fun f => str_upper (py_strip f))
      (filter (fun f => ¬ whitespace_only f) (py_split 44 None line)).
Proof.
  unfold parse_genes. f_equal. apply list_filter_iff.
  intros f. by rewrite py_strip_empty.
Qed.

Lemma parse_genes_of_fragments line frags :
  fragments_of 44 line frags →
  parse_genes line =
  map (fun f => str_upper (py_strip f)) (filter (fun f => ¬ whitespace_only f) frags).
Proof. intros ->%fragments_of_split. apply parse_genes_split. Qed.

Lemma parse_genes_whitespace line frags :
  fragments_of 44 line frags → Forall whitespace_only frags → parse_genes line = [].
Proof.
  intros Hfrags Hall. rewrite (parse_genes_of_fragments _ _ Hfrags).
  clear Hfrags. induction Hall as [|f frags Hf _ IH]; [done|].
  by rewrite filter_cons_False by tauto.
Qed.

(** A line with a colon has a first colon. *)
Lemma first_colon line :
  58 ∈ line → ∃ key value, line = key ++ 58 :: value ∧ 58 ∉ key.
Proof. apply list_elem_of_split_l. Qed.

Lemma parse_param_no_colon params line :
  58 ∉ line → parse_param params line = Return params.
Proof.
  intros Hnin%py_contains_false. unfold parse_param. by rewrite Hnin.
Qed.

Lemma parse_param_first_colon params key value :
  58 ∉ key →
  parse_param params (key ++ 58 :: value)
  = Return (<[py_strip key := py_strip value]> params).
Proof.
  intros Hkey. unfold parse_param.
  assert (py_contains 58 (key ++ 58 :: value) = true) as ->.
  { apply py_contains_spec. set_solver. }
  by rewrite py_split_first.
Qed.

Lemma parse_lines_built lines m :
  ∃ m', exc_fold parse_param m lines = Return m' ∧ built_from lines m m'.
Proof.
  revert m. induction lines as [|line lines IH]; intros m; simpl.
  - exists m. split; [done | constructor].
  - destruct (decide (58 ∈ line)) as [Hin|Hnin].
    + destruct (first_colon _ Hin) as (key & value & -> & Hkey).
      rewrite parse_param_first_colon by done. simpl.
      destruct (IH (<[py_strip key := py_strip value]> m)) as (m' & Hrun & Hbuilt).
      exists m'. split; [done | by constructor].
    + rewrite parse_param_no_colon by done. simpl.
      destruct (IH m) as (m' & Hrun & Hbuilt).
      exists m'. split; [done | by constructor].
Qed.

(** The first colon of a line is where it is. *)
Lemma first_colon_unique key value key' value' :
  58 ∉ key → 58 ∉ key' →
  key ++ 58 :: value = key' ++ 58 :: value' → key = key' ∧ value = value'.
Proof.
  intros Hk Hk' Heq.
  pose proof (py_split_first 58 key value Hk) as H1.
  rewrite Heq, py_split_first in H1 by done. by injection H1.
Qed.

(** The specification determines the mapping. *)
Lemma built_from_functional lines m m1 m2 :
  built_from lines m m1 → built_from lines m m2 → m1 = m2.
Proof.
  intros H1. revert m2.
  induction H1 as [m|line lines m m' Hnin _ IH|key value lines m m' Hkey _ IH];
    intros m2 H2.
  - by inversion H2.
  - inversion H2 as [| |key value ? ? ? Hkey Hrest]; subst; [by apply IH|].
    exfalso. apply Hnin. set_solver.
  - inversion H2 as [|? ? ? ? Hnin|key' value' ? ? ? Hkey' Hrest Heq]; subst.
    + exfalso. apply Hnin. set_solver.
    + apply first_colon_unique in Heq as [-> ->]; [|done..]. by apply IH.
Qed.

(** The cell body always parses. *)
Lemma parse_params_returns cell : ∃ params, parse_params cell = Return params.
Proof.
  destruct (parse_lines_built (py_split 10 None (py_strip cell)) ∅) as (m & Hm & _).
  by exists m.
Qed.

End Parsing.

(** ** Running the magic *)

Section Running.

Context `{RT : PyRuntime}.
Variable requests_post : str → value float → Z → exc response.

Implicit Types (s : session) (evs : list (event float)).

Lemma add_outputs_nil s : add_outputs s [] = s.
Proof. destruct s. unfold add_outputs. simpl. by rewrite app_nil_r. Qed.

Lemma add_outputs_app s evs1 evs2 :
  add_outputs (add_outputs s evs1) evs2 = add_outputs s (evs1 ++ evs2).
Proof. unfold add_outputs. simpl. by rewrite app_assoc. Qed.

Lemma add_outputs_inj s evs1 evs2 :
  add_outputs s evs1 = add_outputs s evs2 → evs1 = evs2.
Proof. unfold add_outputs. intros [= H]. by apply app_inv_head in H. Qed.

(** *** Routines that only show things *)

Lemma shows_ret {A : Type} (a : A) : shows (mret a).
Proof.
  exists (Return a), []. split; [|constructor].
  intros s. by rewrite add_outputs_nil.
Qed.

Lemma shows_lift {A : Type} (c : exc A) : shows (lift c).
Proof.
  exists c, []. split; [|constructor].
  intros s. by rewrite add_outputs_nil.
Qed.

Lemma shows_emit (e : event float) : is_shown e = true → shows (emit e).
Proof. intros He. exists (Return ()), [e]. split; [done | by constructor]. Qed.

Lemma shows_bind {A B : Type} (m : M A) (f : A → M B) :
  shows m → (∀ a, shows (f a)) → shows (m ≫= f).
Proof.
  intros (r & evs & Hm & Hevs) Hf. destruct r as [a|e].
  - destruct (Hf a) as (r' & evs' & Hfa & Hevs').
    exists r', (evs ++ evs'). split; [|by apply Forall_app].
    intros s. unfold mbind, M_bind. rewrite Hm, Hfa. by rewrite add_outputs_app.
  - exists (Raise e), evs. split; [|done].
    intros s. unfold mbind, M_bind. by rewrite Hm.
Qed.

Lemma shows_for_enumerate {A : Type} (i : Z) (xs : list A) (body : Z → A → M unit) :
  (∀ j x, shows (body j x)) → shows (for_enumerate i xs body).
Proof.
  intros Hbody. revert i. induction xs as [|x xs IH]; intros i; simpl.
  - apply shows_ret.
  - apply shows_bind; [apply Hbody | intros _; apply IH].
Qed.

Ltac show_step :=
  first
    [ apply shows_ret
    | apply shows_lift
    | apply shows_emit; reflexivity
    | apply shows_for_enumerate; intros ? ?
    | apply shows_bind; [|intros ?]
    | match goal with
      | |- shows (match ?x with _ => _ end) => destruct x
      end ].

Lemma _display_as_dataframe_shows result : shows (_display_as_dataframe result).
Proof.
  unfold _display_as_dataframe, print, display_DataFrame. repeat show_step.
Qed.

Lemma _display_simple_shows result genes disease :
  shows (_display_simple result genes disease).
Proof. unfold _display_simple, print. repeat show_step. Qed.

Lemma _display_rich_shows result genes disease :
  shows (_display_rich result genes disease).
Proof. unfold _display_rich, display_HTML. repeat show_step. Qed.

Lemma display_results_shows output_format result genes disease :
  shows (display_results output_format result genes disease).
Proof.
  unfold display_results. repeat case_bool_decide;
    auto using _display_as_dataframe_shows, _display_simple_shows,
               _display_rich_shows.
Qed.

(** *** The run of [analyze], case by case *)

Lemma analyze_unfold genes disease audience output_format s :
  analyze requests_post genes disease audience output_format s =
  let body := request_body genes disease audience in
  let s1 := add_outputs s [ DisplayHTML (analyzing_message genes disease);
                            HttpPost (api_url s) body request_timeout ] in
  match requests_post (api_url s) body request_timeout with
  | Raise e => (Return (), add_outputs s1 [DisplayHTML (exception_notice e)])
  | Return r =>
      if bool_decide (status_code r ≠ 200%Z) then
        (Return (), add_outputs s1 [DisplayHTML (api_error_notice (status_code r))])
      else
        match json r with
        | Raise e =>
            (Return (),
             add_outputs s1 [ResponseJson; DisplayHTML (exception_notice e)])
        | Return result =>
            match display_results output_format result genes disease
                    (add_outputs s1 [ResponseJson]) with
            | (Return _, s2) =>
                (Return (),
                 {| api_url := api_url s2;
                    user_ns := <[lit "gaialab_result" := result]> (user_ns s2);
                    outputs := outputs s2 ++ [DisplayMarkdown stored_note] |})
            | (Raise e, s2) =>
                (Return (), add_outputs s2 [DisplayHTML (exception_notice e)])
            end
        end
  end.
Proof.
  unfold analyze, try_except, post, response_json, display_HTML,
    display_Markdown, set_user_ns, get_api_url, emit, lift, exception_notice.
  unfold mbind, M_bind. cbn [api_url user_ns outputs add_outputs].
  destruct (requests_post _ _ _) as [r|e]; cbn [api_url user_ns outputs].
  - case_bool_decide.
    + unfold add_outputs. cbn [api_url user_ns outputs].
      by rewrite <- !app_assoc.
    + destruct (json r) as [result|e]; cbn [api_url user_ns outputs].
      * unfold add_outputs at 1 2. cbn [api_url user_ns outputs].
        rewrite <- !app_assoc. cbn [app].
        destruct (display_results _ _ _ _ _) as [[[]|e] s2];
          cbn [api_url user_ns outputs]; [done|].
        by destruct (exn_is_timeout e).
      * unfold add_outputs. cbn [api_url user_ns outputs].
        rewrite <- !app_assoc. by destruct (exn_is_timeout e).
  - unfold add_outputs. cbn [api_url user_ns outputs].
    rewrite <- !app_assoc. by destruct (exn_is_timeout e).
Qed.

End Running.

Section Cases.

Context `{RT : PyRuntime}.
Variable requests_post : str → value float → Z → exc response.

Implicit Types (s : session) (evs : list (event float)).

(** What [analyze] does, according to the reply of the server and to what
    the formatting routine shows. *)
Lemma analyze_cases genes disease audience output_format s :
  let body := request_body genes disease audience in
  let sent := [ DisplayHTML (analyzing_message genes disease);
                HttpPost (api_url s) body request_timeout ] in
  match requests_post (api_url s) body request_timeout with
  | Raise e =>
      analyze requests_post genes disease audience output_format s
      = (Return (), add_outputs s (sent ++ [DisplayHTML (exception_notice e)]))
  | Return r =>
      if bool_decide (status_code r ≠ 200%Z) then
        analyze requests_post genes disease audience output_format s
        = (Return (),
           add_outputs s (sent ++ [DisplayHTML (api_error_notice (status_code r))]))
      else
        match json r with
        | Raise e =>
            analyze requests_post genes disease audience output_format s
            = (Return (),
               add_outputs s
                 (sent ++ [ResponseJson; DisplayHTML (exception_notice e)]))
        | Return result =>
            ∃ res evs,
              (∀ s', display_results output_format result genes disease s'
                     = (res, add_outputs s' evs)) ∧
              Forall (fun e => is_shown e = true) evs ∧
              analyze requests_post genes disease audience output_format s
              = match res with
                | Return _ =>
                    (Return (),
                     {| api_url := api_url s;
                        user_ns := <[lit "gaialab_result" := result]> (user_ns s);
                        outputs := outputs s ++ sent ++ [ResponseJson] ++ evs
                                   ++ [DisplayMarkdown stored_note] |})
                | Raise e =>
                    (Return (),
                     add_outputs s (sent ++ [ResponseJson] ++ evs
                                    ++ [DisplayHTML (exception_notice e)]))
                end
        end
  end.
Proof.
  intros body sent. rewrite analyze_unfold. fold body. cbv zeta. fold sent.
  destruct (requests_post _ _ _) as [r|e]; [|by rewrite add_outputs_app].
  case_bool_decide; [by rewrite add_outputs_app|].
  destruct (json r) as [result|e]; [|by rewrite add_outputs_app].
  destruct (display_results_shows output_format result genes disease)
    as (res & evs & Hrun & Hevs).
  exists res, evs. split; [done|]. split; [done|].
  rewrite Hrun. destruct res as [[]|e].
  - unfold add_outputs. cbn [api_url user_ns outputs].
    by rewrite <- !app_assoc.
  - rewrite !add_outputs_app. by rewrite <- ?app_assoc.
Qed.

Lemma gaialab_no_genes line cell s :
  parse_genes line = [] →
  gaialab requests_post line cell s
  = (Return (), add_outputs s [DisplayHTML no_genes_notice]).
Proof. intros Hnil. unfold gaialab. by rewrite Hnil. Qed.

Lemma gaialab_analyze line cell params s :
  parse_genes line ≠ [] →
  parse_params cell = Return params →
  gaialab requests_post line cell s
  = analyze requests_post (parse_genes line)
      (params_get params (lit "disease") (lit "cancer"))
      (params_get params (lit "audience") (lit "researcher"))
      (params_get params (lit "format") (lit "rich")) s.
Proof.
  intros Hgenes Hparams. unfold gaialab.
  destruct (parse_genes line) as [|g gs]; [done|].
  unfold mbind, M_bind, lift. by rewrite Hparams.
Qed.

End Cases.

(** ** The tables of [_display_as_dataframe] *)

Section Tables.

Context `{RT : PyRuntime}.

Implicit Types (seen keys cols : list str).

Lemma first_occurrences_seen seen keys :
  (∀ k, k ∈ keys → k ∈ seen) → first_occurrences seen keys = [].
Proof.
  induction keys as [|k keys IH]; intros Hall; simpl; [done|].
  rewrite bool_decide_eq_true_2 by (apply Hall; left).
  apply IH. intros k' Hk'. apply Hall. by right.
Qed.

Lemma first_occurrences_ext seen seen' keys :
  (∀ k, k ∈ seen ↔ k ∈ seen') →
  first_occurrences seen keys = first_occurrences seen' keys.
Proof.
  revert seen seen'. induction keys as [|k keys IH]; intros seen seen' Hiff; simpl; [done|].
  rewrite (bool_decide_ext _ _ (Hiff k)). case_bool_decide; [by apply IH|].
  f_equal. apply IH. intros k'. rewrite !elem_of_cons. by rewrite Hiff.
Qed.

Lemma first_occurrences_app seen keys1 keys2 :
  first_occurrences seen (keys1 ++ keys2)
  = first_occurrences seen keys1 ++ first_occurrences (keys1 ++ seen) keys2.
Proof.
  revert seen. induction keys1 as [|k keys1 IH]; intros seen; simpl; [done|].
  case_bool_decide as Hk.
  - rewrite IH. f_equal. apply first_occurrences_ext.
    intros k'. set_solver.
  - rewrite IH. simpl. f_equal. f_equal. apply first_occurrences_ext.
    intros k'. set_solver.
Qed.

Lemma first_occurrences_NoDup seen keys :
  NoDup keys → (∀ k, k ∈ keys → k ∉ seen) → first_occurrences seen keys = keys.
Proof.
  intros Hnd. revert seen. induction Hnd as [|k keys Hk _ IH]; intros seen Hfresh; simpl; [done|].
  rewrite bool_decide_eq_false_2 by (apply Hfresh; left).
  f_equal. apply IH. intros k' Hk' [->|Hin]%elem_of_cons; [done|].
  by apply (Hfresh k'); [right|].
Qed.

(** Records that all have the keys [cols], in this order, make a frame
    with the columns [cols]. *)
Lemma pd_DataFrame_columns cols (records : list (list (str * value float))) :
  NoDup cols → records ≠ [] →
  Forall (fun r => map fst r = cols) records →
  columns (pd_DataFrame records) = cols.
Proof.
  intros Hnd Hne Hall. unfold pd_DataFrame. simpl.
  destruct Hall as [|r records Hr Hall]; [done|]. simpl.
  rewrite first_occurrences_app, Hr.
  rewrite first_occurrences_NoDup by (done || intros ? ?; apply not_elem_of_nil).
  rewrite first_occurrences_seen; [by rewrite app_nil_r|].
  intros k Hk. rewrite app_nil_r.
  apply list_elem_of_In, in_concat in Hk as (keys & Hkeys & Hk).
  apply list_elem_of_In, list_elem_of_fmap in Hkeys as (r' & -> & Hr').
  apply list_elem_of_In in Hk.
  rewrite Forall_forall in Hall. by rewrite (Hall r' Hr') in Hk.
Qed.

Lemma pd_DataFrame_rows (records : list (list (str * value float))) :
  length (rows (pd_DataFrame records)) = length records ∧
  Forall (fun row => length row = length (columns (pd_DataFrame records)))
         (rows (pd_DataFrame records)).
Proof.
  unfold pd_DataFrame. simpl. split; [by rewrite length_map|].
  apply Forall_forall. intros row (r & -> & _)%list_elem_of_fmap.
  by rewrite length_map.
Qed.

Lemma genes_columns_NoDup : NoDup genes_columns.
Proof. apply (bool_decide_unpack _). by vm_compute. Qed.

Lemma pathways_columns_NoDup : NoDup pathways_columns.
Proof. apply (bool_decide_unpack _). by vm_compute. Qed.

Lemma table_of_records title cols (records : list (list (str * value float))) s :
  NoDup cols →
  Forall (fun r => map fst r = cols) records →
  ∃ evs,
    match records with
    | [] => mret ()
    | _ :: _ => print title;; display_DataFrame (pd_DataFrame records)
    end s = (Return (), add_outputs s evs) ∧
    table_shown title cols (length records) evs.
Proof.
  intros Hnd Hall. destruct records as [|r records].
  - exists []. split; [by rewrite add_outputs_nil | done].
  - exists [Print title; DisplayFrame (pd_DataFrame (r :: records))].
    split.
    + unfold print, display_DataFrame, emit, mbind, M_bind, add_outputs. simpl.
      by rewrite <- app_assoc.
    + exists (pd_DataFrame (r :: records)). split; [done|].
      assert (columns (pd_DataFrame (r :: records)) = cols) as Hcols
        by by apply pd_DataFrame_columns.
      destruct (pd_DataFrame_rows (r :: records)) as [Hlen Hrows].
      rewrite Hcols in Hrows. done.
Qed.

End Tables.

Section Frames.

Context `{RT : PyRuntime}.

Lemma bind_lift_return {A B : Type} (c : exc A) (a : A) (k : A → M B) s :
  c = Return a → (lift c ≫= k) s = k a s.
Proof. by intros ->. Qed.

Lemma bind_run {A B : Type} (m : M A) (k : A → M B) s (a : A) s' :
  m s = (Return a, s') → (m ≫= k) s = k a s'.
Proof. intros Hm. unfold mbind, M_bind. by rewrite Hm. Qed.

Lemma exc_map_ok {A B : Type} (f : A → exc B) (P : A → Prop) (Q : B → Prop) xs :
  (∀ x, P x → ∃ y, f x = Return y ∧ Q y) → Forall P xs →
  ∃ ys, exc_map f xs = Return ys ∧ length ys = length xs ∧ Forall Q ys.
Proof.
  intros Hf. induction 1 as [|x xs Hx _ (ys & Hys & Hlen & HQ)]; simpl.
  - by exists [].
  - destruct (Hf x Hx) as (y & -> & Hy). rewrite Hys. simpl.
    exists (y :: ys). simpl. by rewrite Hlen; auto.
Qed.

Lemma score_ok_renders score :
  score_ok score →
  ∃ text, (py_mul100 score ≫= py_format_float (lit ".0f") format_0f) = Return text.
Proof.
  destruct score as [|b|z|f| | |]; simpl; try done.
  - intros [f ->]. by eexists.
  - intros [f ->]. by eexists.
  - intros _. by eexists.
Qed.

Lemma sized_len (v : value float) : sized v → ∃ n, py_len v = Return n.
Proof. destruct v; simpl; try done; intros _; by eexists. Qed.

(** What [_display_as_dataframe] shows for a reply whose genes and
    pathways are lists of entries its tables can render. *)
Lemma dataframe_tables result gs ps s :
  py_get result (lit "genes") (VList []) = Return (VList gs) →
  Forall gene_ok gs →
  py_get result (lit "pathways") (VList []) = Return (VList ps) →
  Forall pathway_ok (take 10 ps) →
  ∃ genes_part pathways_part,
    _display_as_dataframe result s
    = (Return (), add_outputs s (genes_part ++ pathways_part)) ∧
    table_shown (lit "\n\#1F9EC; GENES:") genes_columns (length gs) genes_part ∧
    table_shown (lit "\n\#1F52C; PATHWAYS:") pathways_columns
      (length (take 10 ps)) pathways_part.
Proof.
  intros Hgenes Hgs Hpathways Hps. unfold _display_as_dataframe.
  rewrite Hgenes, Hpathways. cbn [mbind exc_bind py_iter py_slice].
  match goal with
  | |- context [exc_map ?f gs] =>
      destruct (exc_map_ok f gene_ok (fun r => map fst r = genes_columns) gs)
        as (genes_data & Hgenes_data & Hglen & Hgkeys); [|done|]
  end.
  { intros gene (d & -> & Hscore). cbn [py_get mbind exc_bind].
    destruct (score_ok_renders _ Hscore) as (text & Htext).
    unfold mbind in Htext.
    destruct (py_mul100 _) as [scaled|]; [|done]. cbn [mbind exc_bind] in *.
    rewrite Htext. by eexists. }
  match goal with
  | |- context [exc_map ?f (take 10 ps)] =>
      destruct (exc_map_ok f pathway_ok (fun r => map fst r = pathways_columns)
                  (take 10 ps))
        as (pathways_data & Hpathways_data & Hplen & Hpkeys); [|done|]
  end.
  { intros pathway (d & -> & Hsized). cbn [py_get mbind exc_bind].
    destruct (sized_len _ Hsized) as (n & ->). by eexists. }
  rewrite (bind_lift_return _ genes_data) by done.
  destruct (table_of_records (lit "\n\#1F9EC; GENES:") genes_columns genes_data s
              genes_columns_NoDup Hgkeys) as (genes_part & Hgrun & Hgshown).
  rewrite (bind_run _ _ _ _ _ Hgrun).
  rewrite (bind_lift_return _ pathways_data) by done.
  destruct (table_of_records (lit "\n\#1F52C; PATHWAYS:") pathways_columns
              pathways_data (add_outputs s genes_part)
              pathways_columns_NoDup Hpkeys) as (pathways_part & Hprun & Hpshown).
  rewrite Hprun, add_outputs_app. rewrite Hglen in Hgshown. rewrite Hplen in Hpshown.
  by exists genes_part, pathways_part.
Qed.

Lemma exc_map_inv {A B : Type} (f : A → exc B) (Q : B → Prop) xs ys :
  (∀ x y, f x = Return y → Q y) → exc_map f xs = Return ys →
  length ys = length xs ∧ Forall Q ys.
Proof.
  intros Hf. revert ys. induction xs as [|x xs IH]; intros ys; simpl.
  - intros [= <-]. split; [reflexivity | constructor].
  - destruct (f x) as [y|e] eqn:Hy; [|discriminate]. simpl.
    destruct (exc_map f xs) as [ys'|e]; [|discriminate]. simpl.
    intros [= <-]. destruct (IH ys' eq_refl) as [Hlen Hall].
    split; [simpl; by rewrite Hlen | constructor; eauto].
Qed.

(** Whatever the reply, a frame that [_display_as_dataframe] shows is the
    genes table or the pathways table, with the columns of that table. *)
Lemma dataframe_frames result :
  ∃ r evs,
    (∀ s, _display_as_dataframe result s = (r, add_outputs s evs)) ∧
    Forall (fun df => columns df = genes_columns ∨ columns df = pathways_columns)
           (frames_of evs).
Proof.
  unfold _display_as_dataframe.
  match goal with
  | |- context [lift ?c ≫= ?k] => destruct c as [genes_data|e] eqn:Hgenes
  end; cycle 1.
  { exists (Raise e), []. split; [|constructor].
    intros s. by rewrite add_outputs_nil. }
  assert (Forall (fun r => map fst r = genes_columns) genes_data) as Hgkeys.
  { destruct (py_get result (lit "genes") (VList [])) as [genes|]; [|discriminate].
    cbn [mbind exc_bind] in Hgenes.
    destruct (py_iter genes) as [items|]; [|discriminate].
    cbn [mbind exc_bind] in Hgenes.
    eapply exc_map_inv; [|exact Hgenes].
    intros gene record. unfold mbind, exc_bind.
    repeat case_match; intros [= <-]; reflexivity. }
  match goal with
  | |- context [lift ?c ≫= ?k] =>
      match c with
      | context [lit "pathways"] => destruct c as [pathways_data|e] eqn:Hpathways
      end
  end; cycle 1.
  { destruct genes_data as [|record genes_data].
    - exists (Raise e), []. split; [|constructor].
      intros s. by rewrite add_outputs_nil.
    - exists (Raise e), [Print (lit "\n\#1F9EC; GENES:");
                         DisplayFrame (pd_DataFrame (record :: genes_data))].
      split.
      + intros s. unfold mbind, M_bind, lift, print, display_DataFrame, emit,
          add_outputs. simpl. by rewrite <- app_assoc.
      + apply Forall_singleton. left.
        by apply pd_DataFrame_columns; [apply genes_columns_NoDup| |]. }
  assert (Forall (fun r => map fst r = pathways_columns) pathways_data) as Hpkeys.
  { destruct (py_get result (lit "pathways") (VList [])) as [pathways|]; [|discriminate].
    cbn [mbind exc_bind] in Hpathways.
    destruct (py_slice 10 pathways) as [first|]; [|discriminate].
    cbn [mbind exc_bind] in Hpathways.
    destruct (py_iter first) as [items|]; [|discriminate].
    cbn [mbind exc_bind] in Hpathways.
    eapply exc_map_inv; [|exact Hpathways].
    intros pathway record. unfold mbind, exc_bind.
    repeat case_match; intros [= <-]; reflexivity. }
  assert (∀ title cols (records : list (list (str * value float))),
            NoDup cols → Forall (fun r => map fst r = cols) records →
            ∃ evs, (∀ s, match records with
                         | [] => mret ()
                         | _ :: _ => print title;;
                                     display_DataFrame (pd_DataFrame records)
                         end s = (Return (), add_outputs s evs)) ∧
                   Forall (fun df => columns df = cols) (frames_of evs)) as Htable.
  { intros title cols records Hnd Hkeys. destruct records as [|record records].
    - exists []. split; [|constructor]. intros s. by rewrite add_outputs_nil.
    - exists [Print title; DisplayFrame (pd_DataFrame (record :: records))].
      split.
      + intros s. unfold mbind, M_bind, print, display_DataFrame, emit, add_outputs.
        simpl. by rewrite <- app_assoc.
      + apply Forall_singleton. by apply pd_DataFrame_columns. }
  destruct (Htable (lit "\n\#1F9EC; GENES:") genes_columns genes_data
              genes_columns_NoDup Hgkeys) as (evs_g & Hrun_g & Hframes_g).
  destruct (Htable (lit "\n\#1F52C; PATHWAYS:") pathways_columns pathways_data
              pathways_columns_NoDup Hpkeys) as (evs_p & Hrun_p & Hframes_p).
  exists (Return ()), (evs_g ++ evs_p). split.
  - intros s. rewrite (bind_lift_return _ genes_data) by reflexivity.
    rewrite (bind_run _ _ _ _ _ (Hrun_g s)).
    rewrite (bind_lift_return _ pathways_data) by reflexivity.
    rewrite Hrun_p. by rewrite add_outputs_app.
  - unfold frames_of. rewrite flat_map_app. apply Forall_app. split.
    + eapply Forall_impl; [exact Hframes_g|]. intros df Hdf. by left.
    + eapply Forall_impl; [exact Hframes_p|]. intros df Hdf. by right.
Qed.

End Frames.

(** ** The claims of the specification *)

Section Claims.

Context `{RT : PyRuntime}.
Variable requests_post : str → value float → Z → exc response.

Implicit Types (s : session) (line cell : str).

Lemma shown_not_post (e : event float) : is_shown e = true → is_post e = false.
Proof. by destruct e. Qed.

Lemma no_post_filter (evs : list (event float)) :
  Forall (fun e => is_post e = false) evs →
  filter (fun e => is_post e = true) evs = [].
Proof.
  induction 1 as [|e evs He _ IH]; [reflexivity|].
  rewrite filter_cons_False by congruence. exact IH.
Qed.

(** Every run of [analyze] returns, sends one request, and leaves the
    namespace alone or binds [gaialab_result]. *)
Lemma analyze_summary genes disease audience output_format s :
  ∃ rest ns,
    analyze requests_post genes disease audience output_format s
    = (Return (),
       {| api_url := api_url s; user_ns := ns;
          outputs := outputs s
                     ++ DisplayHTML (analyzing_message genes disease)
                     :: HttpPost (api_url s)
                          (request_body genes disease audience) request_timeout
                     :: rest |}) ∧
    Forall (fun e => is_post e = false) rest ∧
    (ns = user_ns s ∨ ∃ result, ns = <[lit "gaialab_result" := result]> (user_ns s)).
Proof.
  pose proof (analyze_cases requests_post genes disease audience output_format s) as H.
  cbv zeta in H.
  destruct (requests_post _ _ _) as [r|e].
  - case_bool_decide.
    + eexists [_], (user_ns s). split; [by rewrite H|]. split; [by repeat constructor | by left].
    + destruct (json r) as [result|e].
      * destruct H as (res & evs & _ & Hevs & ->).
        assert (Forall (fun e => is_post e = false) evs) as Hnp.
        { eapply Forall_impl; [done|]. apply shown_not_post. }
        destruct res as [[]|e].
        -- exists ([ResponseJson] ++ evs ++ [DisplayMarkdown stored_note]),
             (<[lit "gaialab_result" := result]> (user_ns s)).
           split; [done|]. split; [|by right; eexists].
           repeat (apply Forall_app; split); by repeat constructor.
        -- exists ([ResponseJson] ++ evs ++ [DisplayHTML (exception_notice e)]),
             (user_ns s).
           split; [done|]. split; [|by left].
           repeat (apply Forall_app; split); by repeat constructor.
      * eexists [_; _], (user_ns s). split; [by rewrite H|].
        split; [by repeat constructor | by left].
  - eexists [_], (user_ns s). split; [by rewrite H|]. split; [by repeat constructor | by left].
Qed.

(** C2. For every line, the gene list is made of the comma-separated
    fragments of the line, in their order and with their repetitions,
    without those that are empty or whitespace only, each with the
    surrounding whitespace trimmed and then upper-cased. *)
Theorem parse_genes_fragments line frags :
  fragments_of 44 line frags →
  Forall2 (fun f g => ∃ t, trimmed_of f t ∧ g = str_upper t)
    (filter (fun f => ¬ whitespace_only f) frags) (parse_genes line).
Proof.
  intros Hfrags. rewrite (parse_genes_of_fragments _ _ Hfrags).
  apply Forall2_fmap_r, Forall_Forall2_diag, Forall_forall.
  intros f _. exists (py_strip f). split; [apply py_strip_trimmed | done].
Qed.

(** C3. For every cell body, parsing the parameters returns a mapping, and
    it is the one built line by line from the lines of the stripped body:
    a line without a colon contributes nothing, a line with colons binds
    the trimmed text before the first colon to the trimmed text after it,
    further colons included. *)
Theorem parse_params_built cell :
  ∃ params,
    parse_params cell = Return params ∧
    built_from (py_split 10 None (py_strip cell)) ∅ params ∧
    ∀ params', built_from (py_split 10 None (py_strip cell)) ∅ params' →
               params' = params.
Proof.
  destruct (parse_lines_built (py_split 10 None (py_strip cell)) ∅)
    as (params & Hrun & Hbuilt).
  exists params. repeat split; [done..|].
  intros params' Hbuilt'. by eapply built_from_functional.
Qed.

(** C4. When the gene list is not empty, the magic goes on with the
    values of [disease], [audience] and [format] of the parsed mapping,
    and with 'cancer', 'researcher' and 'rich' for those it lacks. *)
Theorem gaialab_defaults line cell s :
  parse_genes line ≠ [] →
  ∃ params,
    parse_params cell = Return params ∧
    gaialab requests_post line cell s
    = analyze requests_post (parse_genes line)
        (match params !! lit "disease" with
         | Some v => v | None => lit "cancer" end)
        (match params !! lit "audience" with
         | Some v => v | None => lit "researcher" end)
        (match params !! lit "format" with
         | Some v => v | None => lit "rich" end) s.
Proof.
  intros Hgenes. destruct (parse_params_returns cell) as (params & Hparams).
  exists params. split; [done|].
  rewrite (gaialab_analyze _ _ _ params) by done.
  unfold params_get.
  by destruct (params !! lit "disease"), (params !! lit "audience"),
    (params !! lit "format").
Qed.

(** C9. When every comma-separated fragment of the line is whitespace
    only, the gene list is empty and the magic shows the error notice and
    returns: nothing is sent and the namespace is as it was. *)
Theorem gaialab_without_genes line cell frags s :
  fragments_of 44 line frags →
  Forall whitespace_only frags →
  parse_genes line = [] ∧
  gaialab requests_post line cell s
  = (Return (),
     {| api_url := api_url s;
        user_ns := user_ns s;
        outputs := outputs s
          ++ [DisplayHTML
                (lit "<p style=\qcolor:red\q>\#274C; Error: No genes provided</p>")] |}).
Proof.
  intros Hfrags Hall.
  assert (parse_genes line = []) as Hnil by by eapply parse_genes_whitespace.
  split; [done|]. by rewrite gaialab_no_genes.
Qed.

(** The reply of the server, once the cell body is parsed. *)
Lemma server_reply_params line cell params s :
  parse_params cell = Return params →
  server_reply requests_post line cell s
  = requests_post (api_url s)
      (request_body (parse_genes line)
         (params_get params (lit "disease") (lit "cancer"))
         (params_get params (lit "audience") (lit "researcher")))
      request_timeout.
Proof. intros Hparams. unfold server_reply. by rewrite Hparams. Qed.

Lemma formatting_of_params line cell params result s :
  parse_params cell = Return params →
  formatting_of line cell result s
  = display_results (params_get params (lit "format") (lit "rich")) result
      (parse_genes line) (params_get params (lit "disease") (lit "cancer")) s.
Proof. intros Hparams. unfold formatting_of. by rewrite Hparams. Qed.

(** C1. When the gene list is not empty, the magic sends exactly one
    request: a POST to the configured URL (the default one after
    [__init__], the stripped argument of the last [%gaialab_config]
    otherwise) whose JSON body has the fields [genes], [diseaseContext] and
    [audience] and whose timeout is 180; and unless the reply is a 200
    response, all that follows the request is one notice. *)
Theorem gaialab_posts_once line cell s :
  parse_genes line ≠ [] →
  (∀ ns, api_url (__init__ ns) = lit "http://localhost:8787/analyze") ∧
  (∀ url s0, api_url (gaialab_config url s0).2 = py_strip url) ∧
  ∃ disease audience message rest,
    let body :=
      VDict [ (lit "genes", VList (map VStr (parse_genes line)));
              (lit "diseaseContext", VStr disease);
              (lit "audience", VStr audience) ] in
    outputs (gaialab requests_post line cell s).2
    = outputs s ++ DisplayHTML message :: HttpPost (api_url s) body 180 :: rest ∧
    Forall (fun e => is_post e = false) rest ∧
    ((∀ r, requests_post (api_url s) body 180 = Return r → status_code r ≠ 200%Z) →
     ∃ notice, rest = [DisplayHTML notice]).
Proof.
  intros Hgenes. split; [done|]. split; [done|].
  destruct (parse_params_returns cell) as (params & Hparams).
  rewrite (gaialab_analyze _ _ _ params) by done.
  set (disease := params_get params (lit "disease") (lit "cancer")).
  set (audience := params_get params (lit "audience") (lit "researcher")).
  set (fmt := params_get params (lit "format") (lit "rich")).
  exists disease, audience, (analyzing_message (parse_genes line) disease).
  destruct (analyze_summary (parse_genes line) disease audience fmt s)
    as (rest & ns & Hrun & Hrest & _).
  exists rest. cbv zeta. split; [by rewrite Hrun|]. split; [done|].
  intros Hreply.
  pose proof (analyze_cases requests_post (parse_genes line) disease audience fmt s) as H.
  cbv zeta in H. unfold request_body, request_timeout in H.
  destruct (requests_post _ _ _) as [r|e].
  - specialize (Hreply r eq_refl).
    rewrite bool_decide_eq_true_2 in H by done.
    rewrite H in Hrun. injection Hrun as _ Hout.
    apply app_inv_head in Hout. injection Hout as <-.
    eexists; reflexivity.
  - rewrite H in Hrun. injection Hrun as _ Hout.
    apply app_inv_head in Hout. injection Hout as <-.
    eexists; reflexivity.
Qed.

(** C5. When the reply is a response whose status code is not 200, the
    magic shows the notice with that status code after the request and
    returns: [response.json()] is not called, no routine shows anything,
    and the namespace is as it was. *)
Theorem gaialab_non_200 line cell s r :
  parse_genes line ≠ [] →
  server_reply requests_post line cell s = Return r →
  status_code r ≠ 200%Z →
  ∃ message body,
    gaialab requests_post line cell s
    = (Return (),
       {| api_url := api_url s;
          user_ns := user_ns s;
          outputs := outputs s
            ++ [ DisplayHTML message;
                 HttpPost (api_url s) body 180;
                 DisplayHTML (lit "<p style=\qcolor:red\q>\#274C; API Error: "
                              ++ str_of_Z (status_code r) ++ lit "</p>") ] |}).
Proof.
  intros Hgenes Hreply Hstatus.
  destruct (parse_params_returns cell) as (params & Hparams).
  rewrite (server_reply_params _ _ params) in Hreply by done.
  rewrite (gaialab_analyze _ _ _ params) by done.
  pose proof (analyze_cases requests_post (parse_genes line)
                (params_get params (lit "disease") (lit "cancer"))
                (params_get params (lit "audience") (lit "researcher"))
                (params_get params (lit "format") (lit "rich")) s) as H.
  cbv zeta in H. rewrite Hreply in H.
  rewrite bool_decide_eq_true_2 in H by done.
  rewrite H. unfold add_outputs, api_error_notice, request_timeout.
  eexists _, _. reflexivity.
Qed.

(** C6. The magic never raises and never sends a second request.  When
    the request raises, the notice follows the request: the timeout notice
    for a timeout, the error notice with the text of the exception
    otherwise; an exception of [response.json()] or of the formatting
    routine is shown the same way, after what was shown before it. *)
Theorem gaialab_catches line cell s :
  (gaialab requests_post line cell s).1 = Return () ∧
  (∃ evs, outputs (gaialab requests_post line cell s).2 = outputs s ++ evs ∧
          (length (filter (fun e => is_post e = true) evs) ≤ 1)%nat) ∧
  (parse_genes line ≠ [] →
   ∃ message request,
     is_post request = true ∧
     (∀ e, server_reply requests_post line cell s = Raise e →
           gaialab requests_post line cell s
           = (Return (),
              add_outputs s
                [ message; request;
                  DisplayHTML (if exn_is_timeout e then timeout_notice
                               else error_notice e) ])) ∧
     (∀ r e, server_reply requests_post line cell s = Return r →
             status_code r = 200%Z →
             json r = Raise e →
             gaialab requests_post line cell s
             = (Return (),
                add_outputs s
                  [ message; request; ResponseJson;
                    DisplayHTML (if exn_is_timeout e then timeout_notice
                                 else error_notice e) ])) ∧
     (∀ r result e evs,
        server_reply requests_post line cell s = Return r →
        status_code r = 200%Z →
        json r = Return result →
        (∀ s1, formatting_of line cell result s1 = (Raise e, add_outputs s1 evs)) →
        gaialab requests_post line cell s
        = (Return (),
           add_outputs s
             ([message; request; ResponseJson] ++ evs
              ++ [DisplayHTML (if exn_is_timeout e then timeout_notice
                               else error_notice e)])))).
Proof.
  destruct (decide (parse_genes line = [])) as [Hnil|Hgenes].
  { rewrite gaialab_no_genes by done. split; [done|]. split; [|done].
    exists [DisplayHTML no_genes_notice]. split; [reflexivity|].
    rewrite filter_cons_False by (simpl; congruence). simpl. lia. }
  destruct (parse_params_returns cell) as (params & Hparams).
  rewrite (gaialab_analyze _ _ _ params) by done.
  rewrite (server_reply_params _ _ params) by done.
  set (disease := params_get params (lit "disease") (lit "cancer")).
  set (audience := params_get params (lit "audience") (lit "researcher")).
  set (fmt := params_get params (lit "format") (lit "rich")).
  destruct (analyze_summary (parse_genes line) disease audience fmt s)
    as (rest & ns & Hrun & Hrest & _).
  split; [by rewrite Hrun|]. split.
  { rewrite Hrun. eexists. split; [reflexivity|].
    rewrite filter_cons_False by (simpl; congruence).
    rewrite filter_cons_True by reflexivity.
    rewrite (no_post_filter _ Hrest). simpl. lia. }
  intros _. clear rest ns Hrun Hrest.
  exists (DisplayHTML (analyzing_message (parse_genes line) disease)),
    (HttpPost (api_url s) (request_body (parse_genes line) disease audience)
       request_timeout).
  split; [done|].
  pose proof (analyze_cases requests_post (parse_genes line) disease audience fmt s) as H.
  cbv zeta in H. repeat split.
  - intros e He. by rewrite He in H.
  - intros r e Hr Hstatus Hjson. rewrite Hr in H.
    rewrite bool_decide_eq_false_2 in H by tauto. by rewrite Hjson in H.
  - intros r result e evs Hr Hstatus Hjson Hformat. rewrite Hr in H.
    rewrite bool_decide_eq_false_2 in H by tauto. rewrite Hjson in H.
    destruct H as (res & evs' & Hres & _ & ->).
    specialize (Hformat s). rewrite (formatting_of_params _ _ params) in Hformat by done.
    fold fmt disease in Hformat. rewrite Hres in Hformat.
    injection Hformat as -> Hevs%app_inv_head. subst evs'. reflexivity.
Qed.

(** C7 (amended). With the format [dataframe], a 200 response whose genes
    and pathways are lists of entries the tables can render gets, between
    the call of [response.json()] and the closing note, the genes table
    and then the pathways table: each is left out when it would have no
    row and otherwise is its title and one frame, with the columns Symbol,
    Name, Importance, UniProt and a row per gene, respectively with the
    columns Pathway, P-value, Significance, Confidence, Genes and a row
    for each of the first ten pathways. *)
Theorem dataframe_format_tables line cell s params r result gs ps :
  parse_genes line ≠ [] →
  parse_params cell = Return params →
  params !! lit "format" = Some (lit "dataframe") →
  server_reply requests_post line cell s = Return r →
  status_code r = 200%Z →
  json r = Return result →
  py_get result (lit "genes") (VList []) = Return (VList gs) →
  Forall gene_ok gs →
  py_get result (lit "pathways") (VList []) = Return (VList ps) →
  Forall pathway_ok (take 10 ps) →
  ∃ message request genes_part pathways_part,
    outputs (gaialab requests_post line cell s).2
    = outputs s ++ [message; request; ResponseJson]
      ++ genes_part ++ pathways_part ++ [DisplayMarkdown stored_note] ∧
    table_shown (lit "\n\#1F9EC; GENES:")
      [lit "Symbol"; lit "Name"; lit "Importance"; lit "UniProt"]
      (length gs) genes_part ∧
    table_shown (lit "\n\#1F52C; PATHWAYS:")
      [lit "Pathway"; lit "P-value"; lit "Significance"; lit "Confidence";
       lit "Genes"]
      (Nat.min 10 (length ps)) pathways_part.
Proof.
  intros Hgenes Hparams Hformat Hreply Hstatus Hjson Hgs Hgok Hps Hpok.
  rewrite (server_reply_params _ _ params) in Hreply by exact Hparams.
  rewrite (gaialab_analyze _ _ _ params) by assumption.
  set (disease := params_get params (lit "disease") (lit "cancer")) in *.
  set (audience := params_get params (lit "audience") (lit "researcher")) in *.
  assert (params_get params (lit "format") (lit "rich") = lit "dataframe") as ->.
  { unfold params_get. rewrite Hformat. reflexivity. }
  pose proof (analyze_cases requests_post (parse_genes line) disease audience
                (lit "dataframe") s) as H.
  cbv zeta in H. rewrite Hreply in H.
  rewrite bool_decide_eq_false_2 in H by tauto. rewrite Hjson in H.
  destruct H as (res & evs & Hres & _ & ->).
  destruct (dataframe_tables result gs ps s Hgs Hgok Hps Hpok)
    as (genes_part & pathways_part & Hrun & Hgshown & Hpshown).
  assert (display_results (lit "dataframe") result (parse_genes line) disease s
          = _display_as_dataframe result s) as Hsel.
  { unfold display_results. rewrite bool_decide_eq_true_2; reflexivity. }
  rewrite Hres, Hrun in Hsel. injection Hsel as -> Hevs%app_inv_head. subst evs.
  rewrite length_take in Hpshown.
  eexists _, _, genes_part, pathways_part.
  split; [|split; [exact Hgshown | exact Hpshown]].
  cbn [snd outputs]. rewrite <- !app_assoc. reflexivity.
Qed.

(** C8 (amended). An invocation changes no binding of the namespace other
    than [gaialab_result]; it binds [gaialab_result] to the parsed reply
    when it gets as far as storing it (genes, a 200 response, a body that
    parses, a formatting routine that returns), and leaves the namespace
    as it was in every other case. *)
Theorem gaialab_namespace line cell s :
  (∀ name, name ≠ lit "gaialab_result" →
           user_ns (gaialab requests_post line cell s).2 !! name
           = user_ns s !! name) ∧
  (∀ result, stores requests_post line cell s result →
             user_ns (gaialab requests_post line cell s).2
             = <[lit "gaialab_result" := result]> (user_ns s)) ∧
  ((∀ result, ¬ stores requests_post line cell s result) →
   user_ns (gaialab requests_post line cell s).2 = user_ns s).
Proof.
  destruct (decide (parse_genes line = [])) as [Hnil|Hgenes].
  { rewrite gaialab_no_genes by exact Hnil. cbn [snd add_outputs user_ns].
    split; [reflexivity|]. split; [|reflexivity].
    intros result (Hne & _). contradiction. }
  destruct (parse_params_returns cell) as (params & Hparams).
  rewrite (gaialab_analyze _ _ _ params) by assumption.
  unfold stores. rewrite (server_reply_params _ _ params) by exact Hparams.
  set (disease := params_get params (lit "disease") (lit "cancer")).
  set (audience := params_get params (lit "audience") (lit "researcher")).
  set (fmt := params_get params (lit "format") (lit "rich")).
  pose proof (analyze_cases requests_post (parse_genes line) disease audience fmt s) as H.
  cbv zeta in H.
  destruct (requests_post _ _ _) as [r|e].
  - case_bool_decide as Hstatus.
    + rewrite H. cbn [snd add_outputs user_ns].
      split; [reflexivity|]. split; [|reflexivity].
      intros result (_ & r' & [= <-] & Hr' & _). contradiction.
    + destruct (json r) as [result|e] eqn:Hjson.
      * destruct H as (res & evs & Hres & _ & ->).
        destruct res as [[]|e]; cbn [snd add_outputs user_ns].
        -- split; [|split].
           ++ intros name Hname. apply lookup_insert_ne. congruence.
           ++ intros result' (_ & r' & [= <-] & _ & Hjson' & _).
              rewrite Hjson in Hjson'. injection Hjson' as <-. reflexivity.
           ++ intros Hnone. exfalso. apply (Hnone result).
              split; [exact Hgenes|]. exists r.
              split; [reflexivity|]. split; [lia|]. split; [exact Hjson|].
              intros s1. rewrite (formatting_of_params _ _ params) by exact Hparams.
              fold fmt disease. rewrite Hres. reflexivity.
        -- split; [reflexivity|]. split; [|reflexivity].
           intros result' (_ & r' & [= <-] & _ & Hjson' & Hret).
           rewrite Hjson in Hjson'. injection Hjson' as <-.
           specialize (Hret s).
           rewrite (formatting_of_params _ _ params) in Hret by exact Hparams.
           fold fmt disease in Hret. rewrite Hres in Hret. discriminate Hret.
      * rewrite H. cbn [snd add_outputs user_ns].
        split; [reflexivity|]. split; [|reflexivity].
        intros result (_ & r' & [= <-] & _ & Hjson' & _).
        rewrite Hjson in Hjson'. discriminate Hjson'.
  - rewrite H. cbn [snd add_outputs user_ns].
    split; [reflexivity|]. split; [|reflexivity].
    intros result (_ & r' & Hr' & _). discriminate Hr'.
Qed.

(** C10. A format that is neither 'dataframe' nor 'simple' selects the
    rich routine, and the magic then behaves as with the format 'rich'. *)
Theorem other_formats_are_rich output_format :
  output_format ≠ lit "dataframe" →
  output_format ≠ lit "simple" →
  (∀ result genes disease,
     display_results output_format result genes disease
     = _display_rich result genes disease) ∧
  (∀ line cell cell' params,
     parse_params cell = Return params →
     params !! lit "format" = Some output_format →
     parse_params cell' = Return (<[lit "format" := lit "rich"]> params) →
     ∀ s, gaialab requests_post line cell s = gaialab requests_post line cell' s).
Proof.
  intros Hdf Hsimple.
  assert (∀ result genes disease,
            display_results output_format result genes disease
            = _display_rich result genes disease) as Hrich.
  { intros result genes disease. unfold display_results.
    rewrite !bool_decide_eq_false_2 by assumption. reflexivity. }
  split; [exact Hrich|].
  intros line cell cell' params Hparams Hformat Hparams' s.
  destruct (decide (parse_genes line = [])) as [Hnil|Hgenes].
  { rewrite !gaialab_no_genes by exact Hnil. reflexivity. }
  rewrite (gaialab_analyze _ _ _ params) by assumption.
  rewrite (gaialab_analyze _ _ _ (<[lit "format" := lit "rich"]> params))
    by assumption.
  unfold params_get. rewrite Hformat, lookup_insert_eq.
  rewrite !lookup_insert_ne by (vm_compute; congruence).
  cbn [from_option id].
  set (disease := from_option id (lit "cancer") (params !! lit "disease")).
  set (audience := from_option id (lit "researcher") (params !! lit "audience")).
  rewrite !analyze_unfold. cbv zeta.
  destruct (requests_post _ _ _) as [r|e]; [|reflexivity].
  case_bool_decide; [reflexivity|].
  destruct (json r) as [result|e]; [|reflexivity].
  rewrite Hrich.
  assert (display_results (lit "rich") result (parse_genes line) disease
          = _display_rich result (parse_genes line) disease) as ->; [|reflexivity].
  unfold display_results.
  rewrite !bool_decide_eq_false_2 by (vm_compute; congruence). reflexivity.
Qed.

End Claims.

(** ** Further properties of the magics *)

Section Endpoint.

Context `{RT : PyRuntime}.
Variable requests_post : str → value float → Z → exc response.

Implicit Types (s : session) (line cell url : str).

(** The request of an invocation that has genes goes to the endpoint of the
    session it starts in, and the invocation leaves the endpoint alone. *)
Lemma gaialab_endpoint line cell s :
  api_url (gaialab requests_post line cell s).2 = api_url s ∧
  (parse_genes line ≠ [] →
   ∃ message body rest,
     outputs (gaialab requests_post line cell s).2
     = outputs s ++ DisplayHTML message :: HttpPost (api_url s) body 180 :: rest).
Proof.
  destruct (decide (parse_genes line = [])) as [Hnil|Hgenes].
  { rewrite gaialab_no_genes by exact Hnil. split; [reflexivity|].
    intros Hne. contradiction. }
  destruct (parse_params_returns cell) as (params & Hparams).
  rewrite (gaialab_analyze _ _ _ params) by assumption.
  destruct (analyze_summary requests_post (parse_genes line)
              (params_get params (lit "disease") (lit "cancer"))
              (params_get params (lit "audience") (lit "researcher"))
              (params_get params (lit "format") (lit "rich")) s)
    as (rest & ns & -> & _ & _).
  split; [reflexivity|]. intros _. eexists _, _, rest. reflexivity.
Qed.

(** X1. [%gaialab_config url] prints its confirmation, leaves the namespace
    alone and makes the stripped [url] the endpoint: the next invocation
    that has genes sends its request there. *)
Theorem config_then_gaialab url line cell s :
  parse_genes line ≠ [] →
  gaialab_config url s
  = (Return (),
     {| api_url := py_strip url;
        user_ns := user_ns s;
        outputs := outputs s
          ++ [Print (lit "\#2705; GaiaLab API configured: " ++ py_strip url)] |}) ∧
  ∃ message body rest,
    outputs (gaialab requests_post line cell (gaialab_config url s).2).2
    = outputs (gaialab_config url s).2
      ++ DisplayHTML message :: HttpPost (py_strip url) body 180 :: rest.
Proof.
  intros Hgenes. split; [reflexivity|].
  exact (proj2 (gaialab_endpoint line cell (gaialab_config url s).2) Hgenes).
Qed.

(** X2. No invocation of [%%gaialab] changes the endpoint, whatever the
    line, the cell body and the reply. *)
Theorem gaialab_keeps_endpoint line cell s :
  api_url (gaialab requests_post line cell s).2 = api_url s.
Proof. exact (proj1 (gaialab_endpoint line cell s)). Qed.

(** X3. [%gaialab_config] does not validate its argument: with a blank
    argument the endpoint becomes the empty string, and the next invocation
    that has genes sends its request to the empty URL. *)
Theorem config_blank url line cell s :
  whitespace_only url →
  parse_genes line ≠ [] →
  api_url (gaialab_config url s).2 = [] ∧
  ∃ message body rest,
    outputs (gaialab requests_post line cell (gaialab_config url s).2).2
    = outputs (gaialab_config url s).2
      ++ DisplayHTML message :: HttpPost [] body 180 :: rest.
Proof.
  intros Hblank%py_strip_empty Hgenes.
  assert (api_url (gaialab_config url s).2 = []) as Hurl by exact Hblank.
  split; [exact Hurl|].
  destruct (proj2 (gaialab_endpoint line cell (gaialab_config url s).2) Hgenes)
    as (message & body & rest & Hout).
  exists message, body, rest. rewrite Hout, Hurl. reflexivity.
Qed.

(** X4. Loading the extension prints its three lines, binds nothing in the
    namespace, and registers a magic whose endpoint is the default one: an
    invocation that has genes, run right after, sends its request to
    [http://localhost:8787/analyze]. *)
Theorem load_then_gaialab ns line cell :
  parse_genes line ≠ [] →
  load_ipython_extension ns
  = (Return (),
     {| api_url := lit "http://localhost:8787/analyze";
        user_ns := ns;
        outputs := [ Print (lit "\#2705; GaiaLab Jupyter extension loaded!");
                     Print (lit "   Usage: %%gaialab TP53, BRCA1");
                     Print (lit "          disease: breast cancer") ] |}) ∧
  ∃ message body rest,
    outputs (gaialab requests_post line cell (load_ipython_extension ns).2).2
    = outputs (load_ipython_extension ns).2
      ++ DisplayHTML message
      :: HttpPost (lit "http://localhost:8787/analyze") body 180 :: rest.
Proof.
  intros Hgenes. split; [reflexivity|].
  exact (proj2 (gaialab_endpoint line cell (load_ipython_extension ns).2) Hgenes).
Qed.

End Endpoint.

(** ** Further properties of the parsers *)

Section MoreStrings.

Implicit Types (s f : str) (sep : char).

Lemma py_split_nonempty sep s : py_split sep None s ≠ [].
Proof.
  destruct s as [|c s]; simpl; [discriminate|].
  destruct (c =? sep); [discriminate|].
  destruct (py_split sep None s); discriminate.
Qed.

Lemma cons_head_app c (frags1 frags2 : list str) :
  frags1 ≠ [] → cons_head c (frags1 ++ frags2) = cons_head c frags1 ++ frags2.
Proof. destruct frags1; [contradiction | reflexivity]. Qed.

(** Splitting at a separator splits the fragments. *)
Lemma py_split_app sep s1 s2 :
  py_split sep None (s1 ++ sep :: s2) = py_split sep None s1 ++ py_split sep None s2.
Proof.
  induction s1 as [|c s1 IH]; simpl.
  - rewrite N.eqb_refl. reflexivity.
  - destruct (c =? sep); [by rewrite IH|].
    rewrite IH. apply cons_head_app, py_split_nonempty.
Qed.

(** The code points of a fragment are code points of the string. *)
Lemma py_split_elem sep s f x : f ∈ py_split sep None s → x ∈ f → x ∈ s.
Proof.
  revert f. induction s as [|c s IH]; intros f; simpl.
  - intros ->%list_elem_of_singleton Hx. exact Hx.
  - destruct (c =? sep).
    + intros [->|Hf]%elem_of_cons Hx; [by apply not_elem_of_nil in Hx|].
      right. by eapply IH.
    + destruct (py_split sep None s) as [|g gs]; simpl.
      * intros ->%list_elem_of_singleton Hx. set_solver.
      * intros [->|Hf]%elem_of_cons Hx.
        -- apply elem_of_cons in Hx as [->|Hx]; [left|right].
           eapply IH; [left|exact Hx].
        -- right. eapply IH; [right; exact Hf | exact Hx].
Qed.

Lemma py_strip_elem s x : x ∈ py_strip s → x ∈ s.
Proof.
  destruct (py_strip_trimmed s) as (pre & post & Hs & _).
  intros Hx. rewrite Hs. set_solver.
Qed.

End MoreStrings.

Section MoreParsing.

Context `{RT : PyRuntime}.
Variable requests_post : str → value float → Z → exc response.

(** X5. The gene list of two lines put together with a comma is the gene
    list of the first followed by the gene list of the second; so a comma
    at either end, or a doubled comma, changes nothing. *)
Theorem parse_genes_comma line1 line2 :
  parse_genes (line1 ++ 44 :: line2) = parse_genes line1 ++ parse_genes line2.
Proof.
  unfold parse_genes. rewrite py_split_app, filter_app. apply map_app.
Qed.

Lemma exc_fold_app {A B : Type} (f : B → A → exc B) (acc : B) (xs ys : list A) :
  exc_fold f acc (xs ++ ys) = (exc_fold f acc xs ≫= fun acc' => exc_fold f acc' ys).
Proof.
  revert acc. induction xs as [|x xs IH]; intros acc; simpl; [reflexivity|].
  destruct (f acc x) as [acc'|e]; simpl; [apply IH | reflexivity].
Qed.

(** A line binds [key] when its trimmed text before the first colon is
    [key]. *)
Lemma parse_lines_keep (lines : list str) (m : gmap str str) key value :
  m !! key = Some value →
  Forall (fun line => ∀ k v, line = k ++ 58 :: v → 58 ∉ k → py_strip k ≠ key) lines →
  ∃ m', exc_fold parse_param m lines = Return m' ∧ m' !! key = Some value.
Proof.
  intros Hm Hlines. revert m Hm.
  induction Hlines as [|line lines Hline _ IH]; intros m Hm; simpl.
  - by exists m.
  - destruct (decide (58 ∈ line)) as [Hin|Hnin].
    + destruct (first_colon _ Hin) as (k & v & -> & Hk).
      rewrite parse_param_first_colon by exact Hk. simpl.
      apply IH. rewrite lookup_insert_ne; [exact Hm|]. by eapply Hline.
    + rewrite parse_param_no_colon by exact Hnin. simpl. by apply IH.
Qed.

(** X6. When several lines of the cell body bind the same key, the last one
    wins: a line [key: value] that no later line rebinds gives the key its
    trimmed value, whatever the lines before it. *)
Theorem parse_params_last_wins cell lines1 key value lines2 :
  py_split 10 None (py_strip cell) = lines1 ++ (key ++ 58 :: value) :: lines2 →
  58 ∉ key →
  Forall (fun line => ∀ k v, line = k ++ 58 :: v → 58 ∉ k →
                             py_strip k ≠ py_strip key) lines2 →
  ∃ params,
    parse_params cell = Return params ∧
    params !! py_strip key = Some (py_strip value).
Proof.
  intros Hlines Hkey Hlater. unfold parse_params.
  rewrite Hlines, exc_fold_app.
  destruct (parse_lines_built lines1 ∅) as (m1 & -> & _). simpl.
  rewrite parse_param_first_colon by exact Hkey. simpl.
  apply parse_lines_keep; [apply lookup_insert_eq | exact Hlater].
Qed.

(** X7. A cell body without any colon, the empty one included, gives the
    empty mapping: the invocation then runs with the three defaults. *)
Theorem gaialab_without_parameters line cell s :
  58 ∉ cell →
  parse_genes line ≠ [] →
  parse_params cell = Return ∅ ∧
  gaialab requests_post line cell s
  = analyze requests_post (parse_genes line)
      (lit "cancer") (lit "researcher") (lit "rich") s.
Proof.
  intros Hcell Hgenes.
  assert (parse_params cell = Return ∅) as Hparams.
  { unfold parse_params.
    assert (Forall (fun line => 58 ∉ line) (py_split 10 None (py_strip cell))) as Hall.
    { apply Forall_forall. intros l Hl Hin. apply Hcell.
      eapply py_strip_elem, py_split_elem; eassumption. }
    induction Hall as [|l lines Hl _ IH]; [reflexivity|].
    simpl. rewrite parse_param_no_colon by exact Hl. exact IH. }
  split; [exact Hparams|].
  rewrite (gaialab_analyze _ _ _ ∅) by assumption.
  unfold params_get. rewrite !lookup_empty. reflexivity.
Qed.

End MoreParsing.

(** ** Further properties of the formatting routines *)

Section Routines.

Context `{RT : PyRuntime}.

Implicit Types (s : session) (result : value float) (genes : list str) (disease : str).

Lemma py_get_dict (d : list (str * value float)) key default :
  py_get (VDict d) key default = Return (dict_field d key default).
Proof. reflexivity. Qed.

Lemma py_get_non_object result key default :
  (∀ d, result ≠ VDict d) →
  py_get result key default = Raise (builtin (NoAttribute result (lit "get"))).
Proof. intros Hnd. destruct result; try reflexivity. by destruct (Hnd d). Qed.

(** X8. The rich routine shows all or nothing: either it raises without
    having shown anything, or it returns having shown one HTML block. *)
Theorem rich_all_or_nothing result genes disease :
  (∃ e, ∀ s, _display_rich result genes disease s = (Raise e, s)) ∨
  (∃ html, ∀ s, _display_rich result genes disease s
                = (Return (), add_outputs s [DisplayHTML html])).
Proof.
  unfold _display_rich.
  match goal with
  | |- context [lift ?c] => destruct c as [html|e]
  end.
  - right. exists html. intros s. reflexivity.
  - left. exists e. intros s. reflexivity.
Qed.

(** X9. A reply that is not a JSON object makes every routine raise the
    error of its first [result.get]: the dataframe and the rich routine
    have shown nothing by then, the simple routine has printed its title
    and its rule. *)
Theorem routines_reject_non_object result :
  (∀ d, result ≠ VDict d) →
  (∀ s, _display_as_dataframe result s
        = (Raise (builtin (NoAttribute result (lit "get"))), s)) ∧
  (∀ genes disease s,
     _display_rich result genes disease s
     = (Raise (builtin (NoAttribute result (lit "get"))), s)) ∧
  (∀ genes disease s,
     _display_simple result genes disease s
     = (Raise (builtin (NoAttribute result (lit "get"))),
        add_outputs s [ Print (lit "\n\#1F4CA; GaiaLab Analysis: " ++ disease);
                        Print (py_repeat (lit "=") 70) ])).
Proof.
  intros Hnd. repeat split.
  - intros s. unfold _display_as_dataframe.
    rewrite !(py_get_non_object result) by exact Hnd. reflexivity.
  - intros genes disease s. unfold _display_rich.
    rewrite !(py_get_non_object result) by exact Hnd. reflexivity.
  - intros genes disease s. unfold _display_simple.
    rewrite !(py_get_non_object result) by exact Hnd.
    unfold mbind, M_bind, print, emit, lift, add_outputs.
    cbn [api_url user_ns outputs exc_bind]. by rewrite <- app_assoc.
Qed.

(** X10. A reply that is an object without [genes], [pathways],
    [citations], [strategies] and [dataSource] is accepted by every routine:
    the dataframe routine shows nothing, the simple routine prints its seven
    lines with empty or zero counts, the rich routine shows its block. *)
Theorem routines_accept_bare_object d genes disease :
  dict_get d (lit "genes") = None →
  dict_get d (lit "pathways") = None →
  dict_get d (lit "citations") = None →
  dict_get d (lit "strategies") = None →
  dict_get d (lit "dataSource") = None →
  (∀ s, _display_as_dataframe (VDict d) s = (Return (), s)) ∧
  (∀ s, _display_simple (VDict d) genes disease s
        = (Return (),
           add_outputs s
             [ Print (lit "\n\#1F4CA; GaiaLab Analysis: " ++ disease);
               Print (py_repeat (lit "=") 70);
               Print (lit "Genes: ");
               Print (lit "Pathways: " ++ str_of_Z 0);
               Print (lit "Papers: " ++ str_of_Z 0);
               Print (lit "Time: "
                      ++ py_str (dict_field d (lit "analysisTime") (VStr (lit "N/A"))));
               Print (lit "\n\#1F52C; Top Pathways:") ])) ∧
  (∃ html, ∀ s, _display_rich (VDict d) genes disease s
                = (Return (), add_outputs s [DisplayHTML html])).
Proof.
  intros Hgenes Hpathways Hcitations Hstrategies Hsource.
  assert (∀ default, py_get (VDict d) (lit "genes") default = Return default) as Eg.
  { intros default. unfold py_get. by rewrite Hgenes. }
  assert (∀ default, py_get (VDict d) (lit "pathways") default = Return default) as Ep.
  { intros default. unfold py_get. by rewrite Hpathways. }
  assert (∀ default, py_get (VDict d) (lit "citations") default = Return default) as Ec.
  { intros default. unfold py_get. by rewrite Hcitations. }
  assert (∀ default, py_get (VDict d) (lit "strategies") default = Return default) as Es.
  { intros default. unfold py_get. by rewrite Hstrategies. }
  assert (∀ default, py_get (VDict d) (lit "dataSource") default = Return default) as Ed.
  { intros default. unfold py_get. by rewrite Hsource. }
  split; [|split].
  - intros s. unfold _display_as_dataframe. rewrite Eg, Ep.
    unfold mbind, M_bind, lift.
    cbn [exc_bind py_iter py_slice take exc_map mret M_ret].
    reflexivity.
  - intros s. unfold _display_simple. rewrite Eg, !Ep, Ec, py_get_dict.
    unfold py_join_values, mbind, M_bind, mret, M_ret, lift, print, emit, add_outputs.
    cbn [exc_bind py_iter py_slice py_len take exc_map join_items
         py_join length Z.of_nat for_enumerate api_url user_ns outputs].
    rewrite <- !app_assoc. rewrite app_nil_r. reflexivity.
  - unfold _display_rich. rewrite !Eg, !Ep, Ec, Es, Ed, py_get_dict.
    unfold mbind at 1 2 3.
    cbn [exc_bind py_iter py_slice py_len take exc_map exc_fold exc_filter
         length Z.of_nat py_get dict_get from_option id].
    unfold mbind, M_bind, lift.
    cbn [exc_bind py_iter py_slice py_len take exc_map exc_fold exc_filter
         length Z.of_nat py_get dict_get from_option id py_truthy negb
         bool_decide decide_rel].
    eexists. intros s. reflexivity.
Qed.







Lemma pvalue_ok_renders (pvalue : value float) :
  pvalue_ok pvalue →
  ∃ p, py_format_float (lit ".2e") format_2e pvalue = Return p.
Proof.
  destruct pvalue as [|b|z|f| | |]; simpl; try done.
  - intros [f ->]. by eexists.
  - intros [f ->]. by eexists.
  - intros _. by eexists.
Qed.

Lemma join_items_strs i (strs : list str) :
  join_items i (map VStr strs) = Return strs.
Proof.
  revert i. induction strs as [|x strs IH]; intros i; simpl; [reflexivity|].
  by rewrite IH.
Qed.

Lemma for_enumerate_lines (ok : value float → Prop) (body : Z → value float → M unit)
  i (xs : list (value float)) :
  (∀ j x, ok x →
     ∃ line, (∀ s, body j x s = (Return (), add_outputs s [Print line])) ∧
             is_pathway_line j x line) →
  Forall ok xs →
  ∃ lines,
    (∀ s, for_enumerate i xs body s = (Return (), add_outputs s (map Print lines))) ∧
    length lines = length xs ∧
    ∀ k x, xs !! k = Some x →
           ∃ line, lines !! k = Some line ∧ is_pathway_line (i + Z.of_nat k) x line.
Proof.
  intros Hbody Hxs. revert i.
  induction Hxs as [|x xs Hx _ IH]; intros i.
  - exists []. split; [|split; [reflexivity|]].
    + intros s. simpl. by rewrite add_outputs_nil.
    + intros k x Hk. by rewrite lookup_nil in Hk.
  - destruct (Hbody i x Hx) as (line & Hrun & Hline).
    destruct (IH (i + 1)%Z) as (lines & Hruns & Hlen & Hlines).
    exists (line :: lines). split; [|split].
    + intros s. cbn [for_enumerate]. rewrite (bind_run _ _ _ _ _ (Hrun s)).
      rewrite Hruns, add_outputs_app. reflexivity.
    + simpl. by rewrite Hlen.
    + intros [|k] y Hk.
      * injection Hk as <-. exists line. split; [reflexivity|].
        by rewrite Z.add_0_r.
      * destruct (Hlines k y Hk) as (l & Hl & Hrow).
        exists l. split; [exact Hl|].
        replace (i + Z.of_nat (S k))%Z with (i + 1 + Z.of_nat k)%Z by lia.
        exact Hrow.
Qed.

(** X12. For a reply that is an object whose genes are objects with a text
    symbol, whose citations have a length and whose first five pathways are
    objects with a renderable p-value, the simple routine returns having
    printed its title, its rule, the symbols joined by commas, the two
    counts, the time and the heading, and then one line for each of the
    first five pathways, ranked from 1. *)
Theorem simple_lines d gs symbols ps n_citations genes disease :
  dict_field d (lit "genes") (VList []) = VList gs →
  Forall2 (fun g symbol => ∃ gd, g = VDict gd ∧
                                 dict_get gd (lit "symbol") = Some (VStr symbol))
          gs symbols →
  dict_field d (lit "pathways") (VList []) = VList ps →
  Forall (fun p => ∃ pd, p = VDict pd ∧
                         pvalue_ok (dict_field pd (lit "pvalue") (VInt 0)))
         (take 5 ps) →
  py_len (dict_field d (lit "citations") (VList [])) = Return n_citations →
  ∃ lines,
    (∀ s, _display_simple (VDict d) genes disease s
          = (Return (),
             add_outputs s
               ([ Print (lit "\n\#1F4CA; GaiaLab Analysis: " ++ disease);
                  Print (py_repeat (lit "=") 70);
                  Print (lit "Genes: " ++ py_join (lit ", ") symbols);
                  Print (lit "Pathways: " ++ str_of_Z (Z.of_nat (length ps)));
                  Print (lit "Papers: " ++ str_of_Z n_citations);
                  Print (lit "Time: "
                         ++ py_str (dict_field d (lit "analysisTime")
                                      (VStr (lit "N/A"))));
                  Print (lit "\n\#1F52C; Top Pathways:") ]
                ++ map Print lines))) ∧
    length lines = Nat.min 5 (length ps) ∧
    ∀ i pathway, take 5 ps !! i = Some pathway →
                 ∃ line, lines !! i = Some line ∧
                         is_pathway_line (Z.of_nat i + 1) pathway line.
Proof.
  intros Hgenes Hsymbols Hpathways Hps Hcitations.
  assert (exc_map (fun g : value float => py_get g (lit "symbol") VNone) gs
          = Return (map VStr symbols)) as Hsyms.
  { clear -Hsymbols.
    induction Hsymbols as [|g symbol gs symbols (gd & -> & Hsym) _ IH];
      [reflexivity|].
    cbn [exc_map py_get]. rewrite Hsym, IH. reflexivity. }
  unfold _display_simple.
  match goal with
  | |- context [for_enumerate 1 _ ?body] =>
      destruct (for_enumerate_lines
                  (fun p => ∃ pd, p = VDict pd ∧
                                  pvalue_ok (dict_field pd (lit "pvalue") (VInt 0)))
                  body 1 (take 5 ps))
        as (lines & Hruns & Hlen & Hlines); [|exact Hps|]
  end.
  { intros j p (pd & -> & Hpv).
    destruct (pvalue_ok_renders _ Hpv) as (text & Htext).
    eexists. split.
    - intros s. rewrite !py_get_dict. cbn [mbind exc_bind]. rewrite Htext.
      reflexivity.
    - exists pd, text. split; [reflexivity|]. split; [exact Htext | reflexivity]. }
  exists lines. split; [|split].
  - intros s. rewrite !py_get_dict, Hgenes, Hpathways.
    cbn [mbind exc_bind py_iter py_slice py_len]. rewrite Hsyms, Hcitations.
    cbn [mbind exc_bind]. unfold py_join_values. rewrite join_items_strs.
    unfold mbind, M_bind, lift, print, emit.
    cbn [exc_bind api_url user_ns outputs]. rewrite Hruns.
    unfold add_outputs. cbn [api_url user_ns outputs].
    rewrite <- !app_assoc. reflexivity.
  - rewrite Hlen. apply length_take.
  - intros i pathway Hi. destruct (Hlines i pathway Hi) as (line & Hline & Hrow).
    exists line. split; [exact Hline|]. by rewrite Z.add_comm.
Qed.

End Routines.

(** ** Consecutive invocations *)

Section Sequence.

Context `{RT : PyRuntime}.
Variable requests_post : str → value float → Z → exc response.

Implicit Types (s : session) (line cell : str).



End Sequence.

(** ** Runs on the sample sessions *)

#[local] Existing Instance ascii_runtime.

Example docstring_genes :
  parse_genes (lit "TP53, BRCA1, EGFR")
  = [lit "TP53"; lit "BRCA1"; lit "EGFR"].
Proof. reflexivity. Qed.

Example genes_cleaned :
  parse_genes (lit " tp53 ,, brca1,\n,TP53 ")
  = [lit "TP53"; lit "BRCA1"; lit "TP53"].
Proof. reflexivity. Qed.

Example value_with_colons :
  (params ← parse_params
              (lit "disease: breast cancer\nno colon here\nurl : http://h:1\n");
   Return (params !! lit "disease", params !! lit "url", params !! lit "format"))
  = Return (Some (lit "breast cancer"), Some (lit "http://h:1"), None).
Proof. vm_compute. reflexivity. Qed.

Lemma parse_genes_fragments_witness :
  fragments_of 44 (lit "tp53, ,brca1") [lit "tp53"; lit " "; lit "brca1"] ∧
  Forall2 (fun f g => ∃ t, trimmed_of f t ∧ g = str_upper t)
    (filter (fun f => ¬ whitespace_only f) [lit "tp53"; lit " "; lit "brca1"])
    (parse_genes (lit "tp53, ,brca1")).
Proof.
  assert (fragments_of 44 (lit "tp53, ,brca1") [lit "tp53"; lit " "; lit "brca1"])
    as Hfrags.
  { split; [discriminate|]. split; [|reflexivity].
    apply (bool_decide_unpack _). vm_compute. reflexivity. }
  split; [exact Hfrags | exact (parse_genes_fragments _ _ Hfrags)].
Defined.

Lemma gaialab_defaults_witness :
  parse_genes (lit "TP53") ≠ [] ∧
  ∃ params,
    parse_params (lit "audience: clinician") = Return params ∧
    gaialab (constant_server (Return sample_reply)) (lit "TP53")
      (lit "audience: clinician") sample_session
    = analyze (constant_server (Return sample_reply)) (parse_genes (lit "TP53"))
        (match params !! lit "disease" with
         | Some v => v | None => lit "cancer" end)
        (match params !! lit "audience" with
         | Some v => v | None => lit "researcher" end)
        (match params !! lit "format" with
         | Some v => v | None => lit "rich" end) sample_session.
Proof.
  assert (parse_genes (lit "TP53") ≠ []) as Hgenes
    by (vm_compute; discriminate).
  split; [exact Hgenes|].
  exact (gaialab_defaults (constant_server (Return sample_reply))
           (lit "TP53") (lit "audience: clinician") sample_session Hgenes).
Defined.

Lemma gaialab_without_genes_witness :
  parse_genes (lit " , ") = [] ∧
  gaialab (constant_server (Return sample_reply)) (lit " , ") (lit "disease: x")
    sample_session
  = (Return (),
     {| api_url := api_url sample_session;
        user_ns := user_ns sample_session;
        outputs := outputs sample_session
          ++ [DisplayHTML
                (lit "<p style=\qcolor:red\q>\#274C; Error: No genes provided</p>")] |}).
Proof.
  apply (gaialab_without_genes (constant_server (Return sample_reply))
           (lit " , ") (lit "disease: x") [lit " "; lit " "] sample_session).
  - split; [discriminate|]. split; [|reflexivity].
    apply (bool_decide_unpack _). vm_compute. reflexivity.
  - apply (bool_decide_unpack _). vm_compute. reflexivity.
Defined.

Lemma gaialab_posts_once_witness :
  parse_genes (lit "TP53") ≠ [] ∧
  ∃ disease audience message rest,
    let body :=
      VDict [ (lit "genes", VList (map VStr (parse_genes (lit "TP53"))));
              (lit "diseaseContext", VStr disease);
              (lit "audience", VStr audience) ] in
    outputs (gaialab (constant_server (Return failed_reply)) (lit "TP53") (lit "")
               sample_session).2
    = outputs sample_session
      ++ DisplayHTML message :: HttpPost (api_url sample_session) body 180 :: rest ∧
    Forall (fun e => is_post e = false) rest ∧
    ((∀ r, constant_server (Return failed_reply) (api_url sample_session) body 180
           = Return r → status_code r ≠ 200%Z) →
     ∃ notice, rest = [DisplayHTML notice]).
Proof.
  assert (parse_genes (lit "TP53") ≠ []) as Hgenes by (vm_compute; discriminate).
  split; [exact Hgenes|].
  exact (proj2 (proj2 (gaialab_posts_once (constant_server (Return failed_reply))
                         (lit "TP53") (lit "") sample_session Hgenes))).
Defined.

Lemma gaialab_non_200_witness :
  parse_genes (lit "TP53") ≠ [] ∧
  server_reply (constant_server (Return failed_reply)) (lit "TP53") (lit "")
    stale_session = Return failed_reply ∧
  status_code failed_reply ≠ 200%Z ∧
  ∃ message body,
    gaialab (constant_server (Return failed_reply)) (lit "TP53") (lit "")
      stale_session
    = (Return (),
       {| api_url := api_url stale_session;
          user_ns := user_ns stale_session;
          outputs := outputs stale_session
            ++ [ DisplayHTML message;
                 HttpPost (api_url stale_session) body 180;
                 DisplayHTML (lit "<p style=\qcolor:red\q>\#274C; API Error: "
                              ++ str_of_Z (status_code failed_reply)
                              ++ lit "</p>") ] |}).
Proof.
  assert (parse_genes (lit "TP53") ≠ []) as Hgenes by (vm_compute; discriminate).
  assert (server_reply (constant_server (Return failed_reply)) (lit "TP53") (lit "")
            stale_session = Return failed_reply) as Hreply by reflexivity.
  assert (status_code failed_reply ≠ 200%Z) as Hstatus by (vm_compute; discriminate).
  split; [exact Hgenes|]. split; [exact Hreply|]. split; [exact Hstatus|].
  exact (gaialab_non_200 (constant_server (Return failed_reply)) (lit "TP53")
           (lit "") stale_session failed_reply Hgenes Hreply Hstatus).
Defined.

Lemma gaialab_catches_witness :
  parse_genes (lit "TP53") ≠ [] ∧
  (gaialab (constant_server (Raise read_timeout)) (lit "TP53") (lit "")
     sample_session).1 = Return () ∧
  ∃ message request,
    gaialab (constant_server (Raise read_timeout)) (lit "TP53") (lit "")
      sample_session
    = (Return (),
       add_outputs sample_session
         [ message; request;
           DisplayHTML (if exn_is_timeout read_timeout then timeout_notice
                        else error_notice read_timeout) ]).
Proof.
  assert (parse_genes (lit "TP53") ≠ []) as Hgenes by (vm_compute; discriminate).
  split; [exact Hgenes|].
  destruct (gaialab_catches (constant_server (Raise read_timeout)) (lit "TP53")
              (lit "") sample_session) as (Hret & _ & Hcases).
  split; [exact Hret|].
  destruct (Hcases Hgenes) as (message & request & _ & Hraise & _).
  exists message, request. exact (Hraise read_timeout eq_refl).
Defined.

Lemma dataframe_format_tables_witness :
  ∃ message request genes_part pathways_part,
    outputs (gaialab (constant_server (Return sample_reply)) (lit "TP53")
               (lit "format: dataframe") sample_session).2
    = outputs sample_session ++ [message; request; ResponseJson]
      ++ genes_part ++ pathways_part ++ [DisplayMarkdown stored_note] ∧
    table_shown (lit "\n\#1F9EC; GENES:")
      [lit "Symbol"; lit "Name"; lit "Importance"; lit "UniProt"]
      (length sample_genes) genes_part ∧
    table_shown (lit "\n\#1F52C; PATHWAYS:")
      [lit "Pathway"; lit "P-value"; lit "Significance"; lit "Confidence";
       lit "Genes"]
      (Nat.min 10 (length sample_pathways)) pathways_part.
Proof.
  apply (dataframe_format_tables (constant_server (Return sample_reply))
           (lit "TP53") (lit "format: dataframe") sample_session
           {[ lit "format" := lit "dataframe" ]} sample_reply sample_result
           sample_genes sample_pathways).
  - vm_compute. discriminate.
  - vm_compute. reflexivity.
  - vm_compute. reflexivity.
  - reflexivity.
  - reflexivity.
  - reflexivity.
  - reflexivity.
  - constructor; [|constructor]. eexists. split; [reflexivity|].
    eexists. reflexivity.
  - reflexivity.
  - constructor; [|constructor]. eexists. split; [reflexivity|].
    exact I.
Defined.

Lemma gaialab_namespace_witness :
  stores (constant_server (Return sample_reply)) (lit "TP53") (lit "format: simple")
    stale_session sample_result ∧
  user_ns (gaialab (constant_server (Return sample_reply)) (lit "TP53")
             (lit "format: simple") stale_session).2
  = <[lit "gaialab_result" := sample_result]> (user_ns stale_session).
Proof.
  assert (stores (constant_server (Return sample_reply)) (lit "TP53")
            (lit "format: simple") stale_session sample_result) as Hstores.
  { split; [vm_compute; discriminate|]. exists sample_reply.
    split; [reflexivity|]. split; [reflexivity|]. split; [reflexivity|].
    intros s1. reflexivity. }
  split; [exact Hstores|].
  exact (proj1 (proj2 (gaialab_namespace (constant_server (Return sample_reply))
                         (lit "TP53") (lit "format: simple") stale_session))
           sample_result Hstores).
Defined.

Lemma other_formats_are_rich_witness :
  lit "fancy" ≠ lit "dataframe" ∧
  lit "fancy" ≠ lit "simple" ∧
  ∀ result genes disease,
    display_results (lit "fancy") result genes disease
    = _display_rich result genes disease.
Proof.
  assert (lit "fancy" ≠ lit "dataframe") as Hdf by (vm_compute; discriminate).
  assert (lit "fancy" ≠ lit "simple") as Hsimple by (vm_compute; discriminate).
  split; [exact Hdf|]. split; [exact Hsimple|].
  exact (proj1 (other_formats_are_rich (constant_server (Return sample_reply))
                  (lit "fancy") Hdf Hsimple)).
Defined.

(** C7, as stated, fails.  With the format [dataframe], a 200 response
    without genes and pathways gets no table at all, and one whose gene has
    a text for its score gets the error notice instead of a table. *)
Lemma dataframe_format_without_tables :
  frames_of (outputs (gaialab (constant_server (Return empty_reply)) (lit "TP53")
                        (lit "format: dataframe") sample_session).2) = [] ∧
  frames_of (outputs (gaialab (constant_server (Return text_score_reply))
                        (lit "TP53") (lit "format: dataframe") sample_session).2)
  = [] ∧
  last (outputs (gaialab (constant_server (Return text_score_reply))
                   (lit "TP53") (lit "format: dataframe") sample_session).2)
  = Some (DisplayHTML
            (error_notice
               (builtin (BadFormat (lit ".0f")
                           (VStr (py_repeat (lit "0.9") 100)))))).
Proof. repeat split; vm_compute; reflexivity. Qed.

(** C8, as stated, fails.  After an invocation that is answered with a 500
    response, [gaialab_result] is still bound to the earlier result. *)
Lemma failed_reply_keeps_result :
  status_code failed_reply = 500%Z ∧
  json failed_reply = Return sample_result ∧
  user_ns (gaialab (constant_server (Return failed_reply)) (lit "TP53") (lit "")
             stale_session).2 !! lit "gaialab_result"
  = Some (VInt 7).
Proof. repeat split; vm_compute; reflexivity. Qed.

Lemma parse_params_built_witness :
  ∃ params,
    parse_params (lit "disease: lung cancer\nformat: simple") = Return params ∧
    built_from
      (py_split 10 None (py_strip (lit "disease: lung cancer\nformat: simple")))
      ∅ params ∧
    ∀ params',
      built_from
        (py_split 10 None (py_strip (lit "disease: lung cancer\nformat: simple")))
        ∅ params' →
      params' = params.
Proof. exact (parse_params_built (lit "disease: lung cancer\nformat: simple")). Defined.

Lemma config_then_gaialab_witness :
  parse_genes (lit "TP53") ≠ [] ∧
  ∃ message body rest,
    outputs (gaialab (constant_server (Return sample_reply)) (lit "TP53") (lit "")
               (gaialab_config (lit " http://gaia.example/analyze\n")
                  sample_session).2).2
    = outputs (gaialab_config (lit " http://gaia.example/analyze\n")
                 sample_session).2
      ++ DisplayHTML message
      :: HttpPost (py_strip (lit " http://gaia.example/analyze\n")) body 180 :: rest.
Proof.
  assert (parse_genes (lit "TP53") ≠ []) as Hgenes by (vm_compute; discriminate).
  split; [exact Hgenes|].
  exact (proj2 (config_then_gaialab (constant_server (Return sample_reply))
                  (lit " http://gaia.example/analyze\n") (lit "TP53") (lit "")
                  sample_session Hgenes)).
Defined.

Lemma config_blank_witness :
  whitespace_only (lit "  ") ∧
  parse_genes (lit "TP53") ≠ [] ∧
  api_url (gaialab_config (lit "  ") sample_session).2 = [].
Proof.
  assert (whitespace_only (lit "  ")) as Hblank
    by (apply (bool_decide_unpack _); vm_compute; reflexivity).
  assert (parse_genes (lit "TP53") ≠ []) as Hgenes by (vm_compute; discriminate).
  split; [exact Hblank|]. split; [exact Hgenes|].
  exact (proj1 (config_blank (constant_server (Return sample_reply)) (lit "  ")
                  (lit "TP53") (lit "") sample_session Hblank Hgenes)).
Defined.

Lemma load_then_gaialab_witness :
  parse_genes (lit "TP53") ≠ [] ∧
  ∃ message body rest,
    outputs (gaialab (constant_server (Return sample_reply)) (lit "TP53") (lit "")
               (load_ipython_extension ∅).2).2
    = outputs (load_ipython_extension ∅).2
      ++ DisplayHTML message
      :: HttpPost (lit "http://localhost:8787/analyze") body 180 :: rest.
Proof.
  assert (parse_genes (lit "TP53") ≠ []) as Hgenes by (vm_compute; discriminate).
  split; [exact Hgenes|].
  exact (proj2 (load_then_gaialab (constant_server (Return sample_reply)) ∅
                  (lit "TP53") (lit "") Hgenes)).
Defined.

Lemma parse_params_last_wins_witness :
  ∃ params,
    parse_params (lit "disease: asthma\ndisease: lung cancer\nformat: simple")
    = Return params ∧
    params !! py_strip (lit "disease") = Some (py_strip (lit " lung cancer")).
Proof.
  apply (parse_params_last_wins
           (lit "disease: asthma\ndisease: lung cancer\nformat: simple")
           [lit "disease: asthma"] (lit "disease") (lit " lung cancer")
           [lit "format: simple"]).
  - vm_compute. reflexivity.
  - apply (bool_decide_unpack _). vm_compute. reflexivity.
  - constructor; [|constructor]. intros k v Heq Hk.
    assert (58 ∉ lit "format") as Hformat
      by (apply (bool_decide_unpack _); vm_compute; reflexivity).
    destruct (first_colon_unique (lit "format") (lit " simple") k v Hformat Hk Heq)
      as [<- _].
    vm_compute. discriminate.
Defined.

Lemma gaialab_without_parameters_witness :
  (58 ∉ lit "breast cancer") ∧
  parse_genes (lit "TP53") ≠ [] ∧
  parse_params (lit "breast cancer") = Return ∅.
Proof.
  assert (58 ∉ lit "breast cancer") as Hcell
    by (apply (bool_decide_unpack _); vm_compute; reflexivity).
  assert (parse_genes (lit "TP53") ≠ []) as Hgenes by (vm_compute; discriminate).
  split; [exact Hcell|]. split; [exact Hgenes|].
  exact (proj1 (gaialab_without_parameters (constant_server (Return sample_reply))
                  (lit "TP53") (lit "breast cancer") sample_session Hcell Hgenes)).
Defined.

Lemma routines_reject_non_object_witness :
  (∀ d : list (str * value Z), (VList [] : value Z) ≠ VDict d) ∧
  (∀ s, _display_as_dataframe (VList [] : value Z) s
        = (Raise (builtin (NoAttribute (VList []) (lit "get"))), s)).
Proof.
  assert (∀ d : list (str * value Z), (VList [] : value Z) ≠ VDict d) as Hnd
    by (intros d; discriminate).
  split; [exact Hnd|].
  exact (proj1 (routines_reject_non_object (RT := ascii_runtime) (VList []) Hnd)).
Defined.

Lemma routines_accept_bare_object_witness :
  dict_get [(lit "analysisTime", VStr (lit "2.1s"))] (lit "genes")
  = (None : option (value Z)) ∧
  _display_as_dataframe (VDict [(lit "analysisTime", VStr (lit "2.1s"))])
    sample_session
  = (Return (), sample_session).
Proof.
  split; [reflexivity|].
  exact (proj1 (routines_accept_bare_object (RT := ascii_runtime)
                  [(lit "analysisTime", VStr (lit "2.1s"))] [lit "TP53"]
                  (lit "cancer") eq_refl eq_refl eq_refl eq_refl eq_refl)
           sample_session).
Defined.


Lemma simple_lines_witness :
  ∃ lines,
    (∀ s, _display_simple sample_result [lit "TP53"] (lit "cancer") s
          = (Return (),
             add_outputs s
               ([ Print (lit "\n\#1F4CA; GaiaLab Analysis: " ++ lit "cancer");
                  Print (py_repeat (lit "=") 70);
                  Print (lit "Genes: " ++ py_join (lit ", ") [lit "TP53"]);
                  Print (lit "Pathways: "
                         ++ str_of_Z (Z.of_nat (length sample_pathways)));
                  Print (lit "Papers: " ++ str_of_Z 0);
                  Print (lit "Time: "
                         ++ py_str (dict_field
                                      [ (lit "genes", VList sample_genes);
                                        (lit "pathways", VList sample_pathways) ]
                                      (lit "analysisTime") (VStr (lit "N/A"))));
                  Print (lit "\n\#1F52C; Top Pathways:") ]
                ++ map Print lines))) ∧
    length lines = Nat.min 5 (length sample_pathways) ∧
    ∀ i pathway, take 5 sample_pathways !! i = Some pathway →
                 ∃ line, lines !! i = Some line ∧
                         is_pathway_line (Z.of_nat i + 1) pathway line.
Proof.
  apply (simple_lines (RT := ascii_runtime)
           [ (lit "genes", VList sample_genes); (lit "pathways", VList sample_pathways) ]
           sample_genes [lit "TP53"] sample_pathways 0 [lit "TP53"] (lit "cancer")).
  - reflexivity.
  - constructor; [|constructor]. eexists. split; reflexivity.
  - reflexivity.
  - constructor; [|constructor]. eexists. split; [reflexivity|].
    eexists. reflexivity.
  - reflexivity.
Defined.

